(** * Wii remote driver: ring buffer, report decoder, status query

    A shallow embedding of [wii-remote-driver.c].  The module's static
    variables ([circ_buffer], [head], [tail], [circ_mutex], [wii_hid_dev],
    [wii_connected], [wii_last_battery]) are the fields of one record that
    every operation takes and returns.  What the kernel does on the
    driver's behalf is made explicit where a property depends on it:

    - [copy_to_user] succeeds or faults according to a predicate on the
      offsets of the user buffer;
    - [hid_parse], [hid_hw_start] and [hid_hw_raw_request] answer with a
      return code given by the caller of the model, and the requests handed
      to the transport are recorded in order;
    - [printk] output is not part of the model. *)

From Stdlib Require Import ZArith Lia String Ascii DecimalString List.
From Stdlib.Strings Require Import Byte.
From stdpp Require Import base list.
Import ListNotations.

Local Open Scope Z_scope.

(** ** Data *)

Definition CIRC_BUFFER_SIZE : Z := 1024.

(** A [struct hid_device *] is only compared with NULL and handed back to
    the HID core: a handle identifies the device. *)
Definition hid_device : Type := Z.

Inductive hid_report_type : Type :=
  | HID_INPUT_REPORT
  | HID_OUTPUT_REPORT
  | HID_FEATURE_REPORT.

Inductive hid_class_request : Type :=
  | HID_REQ_GET_REPORT
  | HID_REQ_GET_IDLE
  | HID_REQ_GET_PROTOCOL
  | HID_REQ_SET_REPORT
  | HID_REQ_SET_IDLE
  | HID_REQ_SET_PROTOCOL.

(** The arguments of one [hid_hw_raw_request] call. *)
Record raw_request : Type := mkRequest {
  rq_dev : hid_device;
  rq_reportnum : byte;
  rq_buf : list byte;
  rq_len : Z;
  rq_rtype : hid_report_type;
  rq_reqtype : hid_class_request
}.

Record driver : Type := mkDriver {
  circ_buffer : list ascii;          (* char circ_buffer[CIRC_BUFFER_SIZE] *)
  head : Z;                          (* static int head *)
  tail : Z;                          (* static int tail *)
  circ_mutex : bool;                 (* true while the mutex is held *)
  wii_hid_dev : option hid_device;   (* None is NULL *)
  wii_connected : Z;                 (* 1 if connected, 0 if not *)
  wii_last_battery : Z;              (* -1 means unknown *)
  hw_requests : list raw_request     (* requests given to the transport, oldest first *)
}.

Definition set_circ_buffer (b : list ascii) (st : driver) : driver :=
  mkDriver b (head st) (tail st) (circ_mutex st) (wii_hid_dev st)
           (wii_connected st) (wii_last_battery st) (hw_requests st).

Definition set_head (h : Z) (st : driver) : driver :=
  mkDriver (circ_buffer st) h (tail st) (circ_mutex st) (wii_hid_dev st)
           (wii_connected st) (wii_last_battery st) (hw_requests st).

Definition set_tail (t : Z) (st : driver) : driver :=
  mkDriver (circ_buffer st) (head st) t (circ_mutex st) (wii_hid_dev st)
           (wii_connected st) (wii_last_battery st) (hw_requests st).

Definition set_circ_mutex (m : bool) (st : driver) : driver :=
  mkDriver (circ_buffer st) (head st) (tail st) m (wii_hid_dev st)
           (wii_connected st) (wii_last_battery st) (hw_requests st).

Definition set_wii_hid_dev (d : option hid_device) (st : driver) : driver :=
  mkDriver (circ_buffer st) (head st) (tail st) (circ_mutex st) d
           (wii_connected st) (wii_last_battery st) (hw_requests st).

Definition set_wii_connected (c : Z) (st : driver) : driver :=
  mkDriver (circ_buffer st) (head st) (tail st) (circ_mutex st) (wii_hid_dev st)
           c (wii_last_battery st) (hw_requests st).

Definition set_wii_last_battery (b : Z) (st : driver) : driver :=
  mkDriver (circ_buffer st) (head st) (tail st) (circ_mutex st) (wii_hid_dev st)
           (wii_connected st) b (hw_requests st).

Definition push_hw_request (r : raw_request) (st : driver) : driver :=
  mkDriver (circ_buffer st) (head st) (tail st) (circ_mutex st) (wii_hid_dev st)
           (wii_connected st) (wii_last_battery st) (hw_requests st ++ [r]).

Definition mutex_lock (st : driver) : driver := set_circ_mutex true st.
Definition mutex_unlock (st : driver) : driver := set_circ_mutex false st.

(** The module as loaded: a zeroed buffer, both indices 0, nothing attached,
    battery unknown. *)
Definition init : driver :=
  mkDriver (replicate 1024 zero) 0 0 false None 0 (-1) [].

#[global] Instance ascii_inhabited : Inhabited ascii := populate zero.

(** The value of a [u8]. *)
Definition u8 (b : byte) : Z := Z.of_N (Byte.to_N b).

(** ** Ring buffer: producer side *)

(** The [for] loop of [circ_buffer_write].  The second component is the
    value of [i] when the loop is left: the number of bytes stored. *)
Fixpoint circ_buffer_write_loop (data : list ascii) (i : nat) (st : driver)
  : driver * nat :=
  match data with
  | [] => (st, i)
  | c :: rest =>
      let next := Z.rem (head st + 1) CIRC_BUFFER_SIZE in
      if next =? tail st then (st, i)
      else
        circ_buffer_write_loop rest (S i)
          (set_head next
             (set_circ_buffer (<[Z.to_nat (head st) := c]> (circ_buffer st)) st))
  end.

Definition circ_buffer_write (data : list ascii) (st : driver) : driver :=
  mutex_unlock (fst (circ_buffer_write_loop data 0 (mutex_lock st))).

(** How many bytes of [data] a call stores ([circ_buffer_write] itself
    returns nothing). *)
Definition stored (data : list ascii) (st : driver) : nat :=
  snd (circ_buffer_write_loop data 0 (mutex_lock st)).

(** ** Ring buffer: what it holds *)

(** The occupied byte count. *)
Definition occupancy (st : driver) : Z :=
  (head st - tail st + CIRC_BUFFER_SIZE) mod CIRC_BUFFER_SIZE.

(** The unread bytes, oldest first: the cells from [tail] up to [head],
    wrapping at the end of the array. *)
Definition contents (st : driver) : list ascii :=
  map (fun k : nat =>
         circ_buffer st !!! Z.to_nat ((tail st + Z.of_nat k) mod CIRC_BUFFER_SIZE))
      (seq 0 (Z.to_nat (occupancy st))).

(** Bytes that can still be stored: one cell is always kept empty. *)
Definition free (st : driver) : nat :=
  Z.to_nat (CIRC_BUFFER_SIZE - 1 - occupancy st).

(** The array has its declared size and both indices point into it. *)
Definition buf_ok (st : driver) : Prop :=
  length (circ_buffer st) = 1024%nat /\
  0 <= head st < CIRC_BUFFER_SIZE /\
  0 <= tail st < CIRC_BUFFER_SIZE.

(** Storing one byte at [head] and advancing [head]. *)
Definition push_cell (c : ascii) (st : driver) : driver :=
  set_head (Z.rem (head st + 1) CIRC_BUFFER_SIZE)
    (set_circ_buffer (<[Z.to_nat (head st) := c]> (circ_buffer st)) st).

(** Advancing [tail] past the oldest byte. *)
Definition pop_cell (st : driver) : driver :=
  set_tail (Z.rem (tail st + 1) CIRC_BUFFER_SIZE) st.

(** The fields outside the ring buffer. *)
Definition same_device (a b : driver) : Prop :=
  wii_hid_dev a = wii_hid_dev b /\
  wii_connected a = wii_connected b /\
  wii_last_battery a = wii_last_battery b /\
  hw_requests a = hw_requests b.

(** ** Text formatting *)

Definition INT_MAX : Z := 2147483647.

(** [snprintf(dst, size, s)] for an already expanded text [s]: the
    characters put at [dst] (before the terminating NUL) and the return
    value.  The kernel's [vsnprintf] refuses a size above [INT_MAX] and
    returns 0; a size of 0 writes nothing. *)
Definition snprintf (size : Z) (s : list ascii) : list ascii * Z :=
  if INT_MAX <? size then ([], 0)
  else if size =? 0 then ([], Z.of_nat (length s))
  else (take (Z.to_nat (size - 1)) s, Z.of_nat (length s)).

(** [len += snprintf(buf + len, cap - len, s)] on a buffer of [cap] bytes
    that holds [text]; [cap - len] is computed in [size_t]. *)
Definition snprintf_at (cap : Z) (s : string) (ob : list ascii * Z)
  : list ascii * Z :=
  let '(text, len) := ob in
  let '(w, r) := snprintf ((cap - len) mod 2 ^ 64) (list_ascii_of_string s) in
  (take (Z.to_nat len) text ++ w, len + r).

(** [%u] and [%d] of a [u8]. *)
Definition dec (b : byte) : string :=
  NilZero.string_of_uint (N.to_uint (Byte.to_N b)).

Definition newline : ascii := "010"%char.

(** [if (byte & mask) len += snprintf(..., tok);] *)
Definition map_button (byte mask : Z) (tok : string) (ob : list ascii * Z)
  : list ascii * Z :=
  if negb (Z.land byte mask =? 0) then snprintf_at 256 tok ob else ob.

(** ** Report decoder *)

(** The text [perform_input_mapping] builds in [mapping_output] and the
    final [len], for a report of at least three bytes. *)
Definition mapping_output (report_id btn_byte1 btn_byte2 : byte)
  : list ascii * Z :=
  let ob := ([] : list ascii, 0) in
  let ob := snprintf_at 256 ("Report: ID=" ++ dec report_id ++ ", ") ob in
  let ob := map_button (u8 btn_byte1) 0x01 "Dpad_Left" ob in
  let ob := map_button (u8 btn_byte1) 0x02 "Dpad_Right " ob in
  let ob := map_button (u8 btn_byte1) 0x04 "Dpad_Down " ob in
  let ob := map_button (u8 btn_byte1) 0x08 "Dpad_Up " ob in
  let ob := map_button (u8 btn_byte1) 0x10 "Plus " ob in
  let ob := map_button (u8 btn_byte2) 0x10 "Minus " ob in
  let ob := map_button (u8 btn_byte2) 0x80 "Home " ob in
  let ob := map_button (u8 btn_byte2) 0x01 "2 " ob in
  let ob := map_button (u8 btn_byte2) 0x02 "1 " ob in
  let ob := map_button (u8 btn_byte2) 0x04 "B " ob in
  let ob := map_button (u8 btn_byte2) 0x08 "A" ob in
  let ob :=
    if snd ob =? 0
    then snprintf 256 (list_ascii_of_string "No buttons pressed")
    else ob in
  if snd ob <? 256 - 1
  then (take (Z.to_nat (snd ob)) (fst ob) ++ [newline], snd ob + 1)
  else ob.

(** The bytes handed to [circ_buffer_write(mapping_output, len)]. *)
Definition mapped_event (report_id btn_byte1 btn_byte2 : byte) : list ascii :=
  let ob := mapping_output report_id btn_byte1 btn_byte2 in
  take (Z.to_nat (snd ob)) (fst ob).

Definition perform_input_mapping (data : list byte) (st : driver) : driver :=
  let size := Z.of_nat (length data) in
  if size <? 3 then st
  else
    let report_id := nth 0 data x00 in
    let btn_byte1 := nth 1 data x00 in
    let btn_byte2 := nth 2 data x00 in
    circ_buffer_write (mapped_event report_id btn_byte1 btn_byte2) st.

(** ** Event ingestion *)

(** The bytes of [battery_output] handed to [circ_buffer_write]. *)
Definition battery_output (level : byte) : list ascii :=
  let '(text, len) :=
    snprintf 64 (list_ascii_of_string ("Battery: " ++ dec level)
                 ++ [newline]) in
  take (Z.to_nat len) text.

Definition wii_raw_event (data : list byte) (st : driver) : driver * Z :=
  let size := Z.of_nat (length data) in
  if (0 <? size) && (u8 (nth 0 data x00) =? 0x20) then
    if 2 <=? size then
      let level := nth 1 data x00 in
      (circ_buffer_write (battery_output level)
         (set_wii_last_battery (u8 level) st), 0)
    else (st, 0)
  else (perform_input_mapping data st, 0).

(** [parse_ret] and [start_ret] are what [hid_parse] and [hid_hw_start]
    answer for this device. *)
Definition wii_probe (hdev : hid_device) (parse_ret start_ret : Z)
    (st : driver) : driver * Z :=
  if negb (parse_ret =? 0) then (st, parse_ret)
  else if negb (start_ret =? 0) then (st, start_ret)
  else (set_wii_connected 1 (set_wii_hid_dev (Some hdev) st), 0).

Definition wii_remove (hdev : hid_device) (st : driver) : driver :=
  set_wii_connected 0 (set_wii_hid_dev None st).

(** ** The report layout, as a table *)

Inductive button_byte : Type := Byte1 | Byte2.

(** The report layout as it is described: which bit of which byte stands
    for which token, in the order in which the tokens appear on the line. *)
Definition button_table : list (button_byte * N * string) :=
  [ (Byte1, 0%N, "Dpad_Left"); (Byte1, 1%N, "Dpad_Right");
    (Byte1, 2%N, "Dpad_Down"); (Byte1, 3%N, "Dpad_Up");
    (Byte1, 4%N, "Plus");
    (Byte2, 4%N, "Minus"); (Byte2, 7%N, "Home"); (Byte2, 0%N, "2");
    (Byte2, 1%N, "1"); (Byte2, 2%N, "B"); (Byte2, 3%N, "A") ]%string.

Definition bit_set (b : byte) (k : N) : bool := N.testbit (Byte.to_N b) k.

Definition pressed (btn_byte1 btn_byte2 : byte)
    (e : button_byte * N * string) : bool :=
  match e with
  | (Byte1, k, _) => bit_set btn_byte1 k
  | (Byte2, k, _) => bit_set btn_byte2 k
  end.

(** The tokens of the bits that are set, in table order. *)
Definition pressed_tokens (btn_byte1 btn_byte2 : byte) : list string :=
  map snd (List.filter (pressed btn_byte1 btn_byte2) button_table).

Definition report_prefix (report_id : byte) : string :=
  "Report: ID=" ++ dec report_id ++ ", ".

(** The event line whose tokens are joined by single spaces. *)
Definition separated_line (report_id btn_byte1 btn_byte2 : byte) : list ascii :=
  list_ascii_of_string
    (report_prefix report_id
     ++ String.concat " " (pressed_tokens btn_byte1 btn_byte2))
  ++ [newline].

(** A token with what follows it on the line: nothing after the last token
    of the table, [after_left] after the first, one space after any other. *)
Definition terminated (after_left : string) (tok : string) : string :=
  if String.eqb tok "Dpad_Left" then tok ++ after_left
  else if String.eqb tok "A" then tok
  else tok ++ " ".

(** The event line whose tokens each carry their terminator. *)
Definition terminated_line (after_left : string)
    (report_id btn_byte1 btn_byte2 : byte) : list ascii :=
  list_ascii_of_string
    (report_prefix report_id
     ++ String.concat EmptyString
          (map (terminated after_left) (pressed_tokens btn_byte1 btn_byte2)))
  ++ [newline].

(** What one [if (byte & mask) ... snprintf(tok)] adds when nothing is cut. *)
Definition emitted (byte mask : Z) (tok : string) : list ascii :=
  if negb (Z.land byte mask =? 0) then list_ascii_of_string tok else [].

(** ** Values for concrete runs *)

(** The kernel's values of the constants on the usual architectures. *)
Definition ENODEV_linux : Z := 19.
Definition ENOTTY_linux : Z := 25.
Definition EFAULT_linux : Z := 14.
Definition REQUEST_STATUS_linux : Z := 0x5701.
Definition ENOMEM_linux : Z := 12.

Definition all_writable : nat -> bool := fun _ => true.

(** ** Reports, one after the other *)

(** What one report adds to the ring buffer when there is room: the battery
    line for a status report of at least two bytes, the button line for any
    other report of at least three bytes, nothing otherwise. *)
Definition event_line (data : list byte) : list ascii :=
  match data with
  | id :: b1 :: rest =>
      if u8 id =? 0x20 then battery_output b1
      else
        match rest with
        | b2 :: _ => mapped_event id b1 b2
        | [] => []
        end
  | _ => []
  end.

(** Successive calls of [wii_raw_event]. *)
Definition ingest (reports : list (list byte)) (st : driver) : driver :=
  fold_left (fun s data => (wii_raw_event data s).1) reports st.

(** The ring buffer part of the state. *)
Definition same_ring (a b : driver) : Prop :=
  circ_buffer a = circ_buffer b /\ head a = head b /\ tail a = tail b.

(** ** Reading an event line back *)

(** [l] without its front [p], when [p] is its front. *)
Fixpoint strip_prefix (p l : list ascii) : option (list ascii) :=
  match p with
  | [] => Some l
  | c :: p' =>
      match l with
      | d :: l' => if Ascii.eqb c d then strip_prefix p' l' else None
      | [] => None
      end
  end.

Definition is_digit (c : ascii) : bool :=
  (48 <=? nat_of_ascii c)%nat && (nat_of_ascii c <=? 57)%nat.

(** The leading decimal digits. *)
Fixpoint leading_digits (l : list ascii) : list ascii :=
  match l with
  | c :: l' => if is_digit c then c :: leading_digits l' else []
  | [] => []
  end.

(** The digits that follow "Report: ID=" on a button line. *)
Definition read_id (line : list ascii) : list ascii :=
  leading_digits (drop 11 line).

(** The byte written in decimal, if any. *)
Definition byte_of_digits (l : list ascii) : option byte :=
  match NilZero.uint_of_string (string_of_list_ascii l) with
  | Some d => Byte.of_N (N.of_uint d)
  | None => None
  end.

(** The tokens found at the front of [text], looked for one after the
    other in the order of [toks], each with its terminator. *)
Fixpoint read_buttons (toks : list string) (text : list ascii) : list string :=
  match toks with
  | [] => []
  | tok :: toks' =>
      match strip_prefix (list_ascii_of_string (terminated EmptyString tok)) text with
      | Some text' => tok :: read_buttons toks' text'
      | None => read_buttons toks' text
      end
  end.

(** ** Character device *)

Section CharDevice.

(** Constants of the kernel headers, which are not part of the module:
    the three error numbers, and the command [_IO('W', 1)], whose value
    depends on the kernel's encoding of ioctl commands. *)
Variables ENODEV ENOTTY EFAULT : Z.
Variable WIIMOTE_IOCTL_REQUEST_STATUS : Z.

(** The [while] loop of [device_read].  [writable k] tells whether
    [copy_to_user] to [buf + k] succeeds; [remaining] is
    [count - bytes_copied]; [ubuf] is what has been put in the user buffer.
    [inl] is the normal exit of the loop, [inr] the exit through the failed
    copy. *)
Fixpoint device_read_loop (writable : nat -> bool) (remaining : nat)
    (bytes_copied : nat) (ubuf : list ascii) (st : driver)
  : (driver * nat * list ascii) + (driver * list ascii) :=
  match remaining with
  | O => inl (st, bytes_copied, ubuf)
  | S remaining' =>
      if tail st =? head st then inl (st, bytes_copied, ubuf)
      else if negb (writable bytes_copied) then inr (st, ubuf)
      else
        device_read_loop writable remaining' (S bytes_copied)
          (ubuf ++ [circ_buffer st !!! Z.to_nat (tail st)])
          (set_tail (Z.rem (tail st + 1) CIRC_BUFFER_SIZE) st)
  end.

(** Returns the new state, the return value and the bytes written to the
    user buffer. *)
Definition device_read (writable : nat -> bool) (count : nat) (st : driver)
  : driver * Z * list ascii :=
  match device_read_loop writable count 0 [] (mutex_lock st) with
  | inl (st', bytes_copied, ubuf) =>
      (mutex_unlock st', Z.of_nat bytes_copied, ubuf)
  | inr (st', ubuf) => (mutex_unlock st', - EFAULT, ubuf)
  end.

Definition status_request : list byte := [x15; x00].

(** [hw_ret] is what [hid_hw_raw_request] answers when it is called. *)
Definition device_ioctl (hw_ret : Z) (cmd : Z) (st : driver) : driver * Z :=
  if cmd =? WIIMOTE_IOCTL_REQUEST_STATUS then
    match wii_hid_dev st with
    | Some dev =>
        (push_hw_request
           (mkRequest dev (nth 0 status_request x00) status_request
              (Z.of_nat (length status_request))
              HID_OUTPUT_REPORT HID_REQ_SET_REPORT) st,
         hw_ret)
    | None => (st, - ENODEV)
    end
  else (st, - ENOTTY).

(** ** Sequences of operations *)

(** What can happen to the loaded module: the HID core probes or removes a
    device or delivers a report, code of the module stores bytes in the ring
    buffer, a process reads the device or issues an ioctl. *)
Inductive op : Type :=
  | OpProbe (hdev : hid_device) (parse_ret start_ret : Z)
  | OpRemove (hdev : hid_device)
  | OpRawEvent (data : list byte)
  | OpWrite (data : list ascii)
  | OpRead (writable : nat -> bool) (count : nat)
  | OpIoctl (hw_ret : Z) (cmd : Z).

Definition step (st : driver) (o : op) : driver :=
  match o with
  | OpProbe hdev parse_ret start_ret => fst (wii_probe hdev parse_ret start_ret st)
  | OpRemove hdev => wii_remove hdev st
  | OpRawEvent data => fst (wii_raw_event data st)
  | OpWrite data => circ_buffer_write data st
  | OpRead writable count => fst (fst (device_read writable count st))
  | OpIoctl hw_ret cmd => fst (device_ioctl hw_ret cmd st)
  end.

Definition run (ops : list op) (st : driver) : driver :=
  fold_left step ops st.



(** ** What holds between two operations *)

(** The array and its indices are sound, the mutex is free, the connected
    flag agrees with the device pointer, and the cached battery level is the
    unknown mark or the value of a byte. *)
Definition driver_inv (st : driver) : Prop :=
  buf_ok st /\
  circ_mutex st = false /\
  ((wii_connected st = 1 /\ wii_hid_dev st <> None) \/
   (wii_connected st = 0 /\ wii_hid_dev st = None)) /\
  (wii_last_battery st = -1 \/ 0 <= wii_last_battery st <= 255).

(** Successive writes. *)
Definition write_all (ws : list (list ascii)) (st : driver) : driver :=
  fold_left (fun s w => circ_buffer_write w s) ws st.

(** None of the successive writes leaves its loop early. *)
Fixpoint no_drop (ws : list (list ascii)) (st : driver) : Prop :=
  match ws with
  | [] => True
  | w :: ws' => stored w st = length w /\ no_drop ws' (circ_buffer_write w st)
  end.

(** Successive reads, each with its own user buffer and count: the final
    state and, per read, the return value and the bytes delivered. *)
Fixpoint read_all (reads : list ((nat -> bool) * nat)) (st : driver)
  : driver * list (Z * list ascii) :=
  match reads with
  | [] => (st, [])
  | (writable, count) :: reads' =>
      let r := device_read writable count st in
      let rest := read_all reads' r.1.1 in
      (rest.1, (r.1.2, r.2) :: rest.2)
  end.

(** A list cut into pieces of at most the given sizes, front first. *)
Fixpoint chunks (counts : list nat) (l : list ascii) : list (list ascii) :=
  match counts with
  | [] => []
  | n :: counts' => take n l :: chunks counts' (drop n l)
  end.

(** ** The history of a run *)

(** The cached battery level after an operation, given the level before:
    only a status report of at least two bytes changes it. *)
Definition level_after (level : Z) (o : op) : Z :=
  match o with
  | OpRawEvent (id :: b :: _) => if u8 id =? 0x20 then u8 b else level
  | _ => level
  end.

(** The device pointer after an operation, given the pointer before: a
    probe whose two kernel calls succeed sets it, a removal clears it. *)
Definition device_after (dev : option hid_device) (o : op) : option hid_device :=
  match o with
  | OpProbe hdev parse_ret start_ret =>
      if (parse_ret =? 0) && (start_ret =? 0) then Some hdev else dev
  | OpRemove _ => None
  | _ => dev
  end.

(** A status ioctl. *)
Definition is_status_ioctl (o : op) : bool :=
  match o with
  | OpIoctl _ cmd => cmd =? WIIMOTE_IOCTL_REQUEST_STATUS
  | _ => false
  end.

(** The one request the module ever makes. *)
Definition is_status_request (r : raw_request) : Prop :=
  rq_reportnum r = x15 /\
  rq_buf r = [x15; x00] /\
  rq_len r = 2 /\
  rq_rtype r = HID_OUTPUT_REPORT /\
  rq_reqtype r = HID_REQ_SET_REPORT.

(** ** The /proc entry *)

(** [%d] of an [int]. *)
Definition dec_int (z : Z) : string := NilZero.string_of_int (Z.to_int z).

Definition nl : string := String newline EmptyString.

(** The text [wii_proc_show] prints into the seq_file. *)
Definition wii_proc_show (st : driver) : string :=
  ("Wii Remote Driver State:" ++ nl)
  ++ ("  Connected: " ++ (if wii_connected st =? 0 then "No" else "Yes") ++ nl)
  ++ ("  Last Battery: " ++ dec_int (wii_last_battery st) ++ nl).

(** ** Loading and unloading *)

(** Another constant of the kernel headers. *)
Variable ENOMEM : Z.

(** What the kernel holds on behalf of the module, and the module's own
    [wii_proc_entry] pointer ([true] when it is not NULL). *)
Record registry : Type := mkRegistry {
  wii_proc_entry : bool;
  proc_registered : bool;     (* /proc/wii_remote *)
  region_registered : bool;   (* the char device region *)
  cdev_added : bool;          (* wii_cdev *)
  class_created : bool;       (* wii_class *)
  device_created : bool;      (* the /dev/wii_remote node *)
  hid_registered : bool       (* wii_driver *)
}.

Definition nothing_registered : registry :=
  mkRegistry false false false false false false false.

(** How the kernel answers the calls of [wii_init].  A return code is 0 on
    success and negative on failure; [class_create_err] is 0 when
    [class_create] returns a valid pointer and the negative error number
    inside the pointer otherwise. *)
Record kernel_answers : Type := mkAnswers {
  proc_create_ok : bool;
  alloc_chrdev_region_ret : Z;
  cdev_add_ret : Z;
  class_create_err : Z;
  device_create_ok : bool;
  hid_register_driver_ret : Z
}.

Definition answers_in_contract (k : kernel_answers) : Prop :=
  alloc_chrdev_region_ret k <= 0 /\ cdev_add_ret k <= 0 /\
  class_create_err k <= 0 /\ hid_register_driver_ret k <= 0.

Definition set_proc (e r : bool) (g : registry) : registry :=
  mkRegistry e r (region_registered g) (cdev_added g) (class_created g)
             (device_created g) (hid_registered g).

Definition set_region (b : bool) (g : registry) : registry :=
  mkRegistry (wii_proc_entry g) (proc_registered g) b (cdev_added g)
             (class_created g) (device_created g) (hid_registered g).

Definition set_cdev (b : bool) (g : registry) : registry :=
  mkRegistry (wii_proc_entry g) (proc_registered g) (region_registered g) b
             (class_created g) (device_created g) (hid_registered g).

Definition set_class (b : bool) (g : registry) : registry :=
  mkRegistry (wii_proc_entry g) (proc_registered g) (region_registered g)
             (cdev_added g) b (device_created g) (hid_registered g).

Definition set_device (b : bool) (g : registry) : registry :=
  mkRegistry (wii_proc_entry g) (proc_registered g) (region_registered g)
             (cdev_added g) (class_created g) b (hid_registered g).

Definition set_hid (b : bool) (g : registry) : registry :=
  mkRegistry (wii_proc_entry g) (proc_registered g) (region_registered g)
             (cdev_added g) (class_created g) (device_created g) b.

(** [IS_ERR] of the pointer [class_create] returned. *)
Definition IS_ERR (err : Z) : bool := err <? 0.

Definition wii_init (k : kernel_answers) (g : registry) : registry * Z :=
  (* wii_proc_entry = proc_create(...) *)
  let g := set_proc (proc_create_ok k) (proc_registered g || proc_create_ok k) g in
  if negb (wii_proc_entry g) then (g, - ENOMEM)
  else
    (* ret = alloc_chrdev_region(...) *)
    let ret := alloc_chrdev_region_ret k in
    let g := if ret =? 0 then set_region true g else g in
    if ret <? 0 then (g, ret)
    else
      (* cdev_init; ret = cdev_add(...) *)
      let ret := cdev_add_ret k in
      let g := if ret =? 0 then set_cdev true g else g in
      if ret <? 0 then (set_region false g, ret)
      else
        (* wii_class = class_create(...) *)
        let err := class_create_err k in
        let g := if IS_ERR err then g else set_class true g in
        if IS_ERR err then (set_region false (set_cdev false g), err)
        else
          (* device_create(...), result not looked at *)
          let g := if device_create_ok k then set_device true g else g in
          (* ret = hid_register_driver(...) *)
          let ret := hid_register_driver_ret k in
          let g := if ret =? 0 then set_hid true g else g in
          if negb (ret =? 0) then
            (set_region false
               (set_cdev false (set_class false (set_device false g))), ret)
          else (g, 0).

Definition wii_exit (g : registry) : registry :=
  let g := if wii_proc_entry g then set_proc false false g else g in
  set_region false
    (set_cdev false (set_class false (set_device false (set_hid false g)))).

(** ** The reader program (user-space.c) *)

(** The C string held by a buffer: the bytes before the first NUL. *)
Fixpoint c_string (l : list ascii) : list ascii :=
  match l with
  | c :: l' => if Ascii.eqb c zero then [] else c :: c_string l'
  | [] => []
  end.

Fixpoint starts_with (needle hay : list ascii) : bool :=
  match needle, hay with
  | [], _ => true
  | c :: needle', d :: hay' => Ascii.eqb c d && starts_with needle' hay'
  | _ :: _, [] => false
  end.

(** Whether [strstr(hay, needle)] finds an occurrence. *)
Fixpoint strstr (hay : list ascii) (needle : list ascii) : bool :=
  match hay with
  | [] => starts_with needle []
  | _ :: hay' => starts_with needle hay || strstr hay' needle
  end.

Definition INT_MIN : Z := -2147483648.

(** [a + b] in [int]; overflow is undefined. *)
Definition int_add (a b : Z) : option Z :=
  if (INT_MIN <=? a + b) && (a + b <=? INT_MAX) then Some (a + b) else None.

(** The three variables of [main]. *)
Record pointer : Type := mkPointer {
  x_pos : Z;
  y_pos : Z;
  move_step : Z
}.

(** The calls [main] makes, in order.  The helpers [left_click],
    [right_click], [page_up] and [send_mouse_move] start xdotool through
    the shell; only the fact that they are called is recorded.
    [page_down] is not among them: see [page_down] below. *)
Inductive call : Type :=
  | Printf (text : string)
  | Perror (text : string)
  | Close
  | Left_click
  | Right_click
  | Page_up
  | Send_mouse_move (x y : Z)
  | Usleep (usec : Z).

(** How an iteration ends: the loop goes on, the loop is left, an [int]
    overflows, or a function is called that no file declares or defines
    (with the calls made before it, and its name). *)
Inductive outcome : Type :=
  | Continue (p : pointer) (calls : list call)
  | Break (calls : list call)
  | Undefined
  | No_definition (calls : list call) (function : string).

(** [page_down()], entered after [calls]: its first statement is a call of
    [sytem], which does not exist, so the program as written cannot be
    linked and nothing is known to follow. *)
Definition page_down (calls : list call) : outcome :=
  No_definition calls "sytem".

(** The end of every iteration that does not leave the loop. *)
Definition move_and_sleep (p : pointer) (calls : list call) : outcome :=
  Continue p (calls ++ [Send_mouse_move (x_pos p) (y_pos p); Usleep 100000]).

Definition needle (s : string) : list ascii := list_ascii_of_string s.

(** One iteration of the loop of [main], after [read] has returned
    [bytes_read] and put [data] into [buffer]. *)
Definition main_iteration (bytes_read : Z) (data : list ascii) (p : pointer)
  : outcome :=
  if bytes_read <? 0 then Break [Perror "Error reading from device"; Close]
  else
    (* buffer[bytes_read] = '\0' *)
    let buffer := c_string (take (Z.to_nat bytes_read) data) in
    if strstr buffer (needle "Dpad_Down") then
      match int_add (y_pos p) (move_step p) with
      | Some y =>
          move_and_sleep (mkPointer (x_pos p) y (move_step p))
            [Printf ("D-Pad Down pressed" ++ nl)]
      | None => Undefined
      end
    else if strstr buffer (needle "Dpad_Up") then
      match int_add (y_pos p) (- move_step p) with
      | Some y =>
          move_and_sleep (mkPointer (x_pos p) y (move_step p))
            [Printf ("D-Pad Up pressed" ++ nl)]
      | None => Undefined
      end
    else if strstr buffer (needle "Dpad_Left") then
      match int_add (x_pos p) (- move_step p) with
      | Some x =>
          move_and_sleep (mkPointer x (y_pos p) (move_step p))
            [Printf ("D-Pad Left pressed" ++ nl)]
      | None => Undefined
      end
    else if strstr buffer (needle "Dpad_Right") then
      match int_add (x_pos p) (move_step p) with
      | Some x =>
          move_and_sleep (mkPointer x (y_pos p) (move_step p))
            [Printf ("D-Pad Right pressed" ++ nl)]
      | None => Undefined
      end
    else if strstr buffer (needle "A") then
      move_and_sleep p [Printf ("A Right pressed" ++ nl); Left_click]
    else if strstr buffer (needle "B") then
      move_and_sleep p [Printf ("A Right pressed" ++ nl); Right_click]
    else if strstr buffer (needle "1") then
      move_and_sleep p [Printf ("1 pressed" ++ nl); Page_up]
    else if strstr buffer (needle "2") then
      page_down [Printf "2 pressed"]
    else if strstr buffer (needle "Plus") then
      match int_add (move_step p) 5 with
      | Some s =>
          move_and_sleep (mkPointer (x_pos p) (y_pos p) s)
            [Printf ("Plus pressed" ++ nl)]
      | None => Undefined
      end
    else if strstr buffer (needle "Minus") then
      match int_add (move_step p) (-5) with
      | Some s =>
          move_and_sleep (mkPointer (x_pos p) (y_pos p) s)
            [Printf "Minus pressed"]
      | None => Undefined
      end
    else move_and_sleep p [].

(** The buffer of [main]: 256 bytes on its stack. *)
Definition user_buffer : nat -> bool := fun k => (k <? 256)%nat.

(** One poll of the device by the reader: [read(fd, buffer, 255)] and the
    iteration that follows. *)
Definition poll (st : driver) (p : pointer) : driver * outcome :=
  let r := device_read user_buffer 255 st in
  (r.1.1, main_iteration r.1.2 r.2 p).

(** Which of the ten texts the reader looks for are present. *)
Record seen : Type := mkSeen {
  s_down : bool; s_up : bool; s_left : bool; s_right : bool;
  s_a : bool; s_b : bool; s_1 : bool; s_2 : bool;
  s_plus : bool; s_minus : bool
}.

Definition seen_or (a b : seen) : seen :=
  mkSeen (s_down a || s_down b) (s_up a || s_up b) (s_left a || s_left b)
         (s_right a || s_right b) (s_a a || s_a b) (s_b a || s_b b)
         (s_1 a || s_1 b) (s_2 a || s_2 b) (s_plus a || s_plus b)
         (s_minus a || s_minus b).

Definition seen_nothing : seen :=
  mkSeen false false false false false false false false false false.

(** Whether the decimal text of a report identifier has the digit [d]. *)
Definition has_digit (report_id : byte) (d : ascii) : bool :=
  existsb (Ascii.eqb d) (list_ascii_of_string (dec report_id)).

(** What the line of a button report shows the reader: the buttons by
    their bits, and the digits 1 and 2 also by the report identifier. *)
Definition seen_in_report (report_id btn_byte1 btn_byte2 : byte) : seen :=
  mkSeen (bit_set btn_byte1 2) (bit_set btn_byte1 3) (bit_set btn_byte1 0)
         (bit_set btn_byte1 1) (bit_set btn_byte2 3) (bit_set btn_byte2 2)
         (bit_set btn_byte2 1 || has_digit report_id "1")
         (bit_set btn_byte2 0 || has_digit report_id "2")
         (bit_set btn_byte1 4) (bit_set btn_byte2 4).

(** The reaction of the reader to what it has seen: the first of Down, Up,
    Left, Right, A, B, 1, 2, Plus, Minus that is present, and no other.
    The reaction to 2 is the call of [page_down]. *)
Definition react (s : seen) (p : pointer) : outcome :=
  if s_down s then
    match int_add (y_pos p) (move_step p) with
    | Some y =>
        move_and_sleep (mkPointer (x_pos p) y (move_step p))
          [Printf ("D-Pad Down pressed" ++ nl)]
    | None => Undefined
    end
  else if s_up s then
    match int_add (y_pos p) (- move_step p) with
    | Some y =>
        move_and_sleep (mkPointer (x_pos p) y (move_step p))
          [Printf ("D-Pad Up pressed" ++ nl)]
    | None => Undefined
    end
  else if s_left s then
    match int_add (x_pos p) (- move_step p) with
    | Some x =>
        move_and_sleep (mkPointer x (y_pos p) (move_step p))
          [Printf ("D-Pad Left pressed" ++ nl)]
    | None => Undefined
    end
  else if s_right s then
    match int_add (x_pos p) (move_step p) with
    | Some x =>
        move_and_sleep (mkPointer x (y_pos p) (move_step p))
          [Printf ("D-Pad Right pressed" ++ nl)]
    | None => Undefined
    end
  else if s_a s then
    move_and_sleep p [Printf ("A Right pressed" ++ nl); Left_click]
  else if s_b s then
    move_and_sleep p [Printf ("A Right pressed" ++ nl); Right_click]
  else if s_1 s then
    move_and_sleep p [Printf ("1 pressed" ++ nl); Page_up]
  else if s_2 s then
    page_down [Printf "2 pressed"]
  else if s_plus s then
    match int_add (move_step p) 5 with
    | Some s' =>
        move_and_sleep (mkPointer (x_pos p) (y_pos p) s')
          [Printf ("Plus pressed" ++ nl)]
    | None => Undefined
    end
  else if s_minus s then
    match int_add (move_step p) (-5) with
    | Some s' =>
        move_and_sleep (mkPointer (x_pos p) (y_pos p) s')
          [Printf "Minus pressed"]
    | None => Undefined
    end
  else move_and_sleep p [].

(** The ten searches of one iteration, on the text [text]. *)
Definition seen_in_text (text : list ascii) : seen :=
  mkSeen (strstr text (needle "Dpad_Down")) (strstr text (needle "Dpad_Up"))
         (strstr text (needle "Dpad_Left")) (strstr text (needle "Dpad_Right"))
         (strstr text (needle "A")) (strstr text (needle "B"))
         (strstr text (needle "1")) (strstr text (needle "2"))
         (strstr text (needle "Plus")) (strstr text (needle "Minus")).

(** What the line of any report shows the reader.  A battery line shows
    "B", its first letter, and the digits of the level. *)
Definition seen_in_event (data : list byte) : seen :=
  match data with
  | id :: b1 :: rest =>
      if u8 id =? 0x20 then
        mkSeen false false false false false true
               (has_digit b1 "1") (has_digit b1 "2") false false
      else
        match rest with
        | b2 :: _ => seen_in_report id b1 b2
        | [] => seen_nothing
        end
  | _ => seen_nothing
  end.

(** * Properties *)

(** ** Ring buffer: one cell at a time *)

Lemma occupancy_range (st : driver) : 0 <= occupancy st < 1024.
Proof. unfold occupancy, CIRC_BUFFER_SIZE. apply Z.mod_pos_bound. lia. Qed.

Lemma length_contents (st : driver) :
  length (contents st) = Z.to_nat (occupancy st).
Proof. unfold contents. now rewrite length_map, length_seq. Qed.

Lemma contents_empty (st : driver) : head st = tail st -> contents st = [].
Proof.
  intros E. unfold contents, occupancy, CIRC_BUFFER_SIZE. rewrite E.
  replace (tail st - tail st + 1024) with 1024 by lia. reflexivity.
Qed.

Lemma full_iff (st : driver) :
  buf_ok st ->
  Z.rem (head st + 1) CIRC_BUFFER_SIZE = tail st <-> free st = 0%nat.
Proof.
  intros (_ & Hh & Ht). unfold free, occupancy, CIRC_BUFFER_SIZE in *.
  rewrite Z.rem_mod_nonneg by lia.
  split; intros; Z.div_mod_to_equations; lia.
Qed.

Lemma push_cell_ok (c : ascii) (st : driver) :
  buf_ok st -> buf_ok (push_cell c st).
Proof.
  intros (Hl & Hh & Ht). unfold buf_ok, push_cell, CIRC_BUFFER_SIZE in *. simpl.
  rewrite length_insert, Z.rem_mod_nonneg by lia.
  repeat split; try lia; Z.div_mod_to_equations; lia.
Qed.

Lemma push_cell_occupancy (c : ascii) (st : driver) :
  buf_ok st -> free st <> 0%nat ->
  occupancy (push_cell c st) = occupancy st + 1.
Proof.
  intros (Hl & Hh & Ht) Hf. unfold free, occupancy, push_cell, CIRC_BUFFER_SIZE in *.
  simpl. rewrite Z.rem_mod_nonneg by lia. Z.div_mod_to_equations; lia.
Qed.

Lemma push_cell_contents (c : ascii) (st : driver) :
  buf_ok st -> free st <> 0%nat ->
  contents (push_cell c st) = contents st ++ [c].
Proof.
  intros Hok Hf. pose proof (push_cell_occupancy c st Hok Hf) as Ho.
  pose proof (occupancy_range st) as Hr.
  destruct Hok as (Hl & Hh & Ht).
  unfold contents. rewrite Ho.
  replace (Z.to_nat (occupancy st + 1)) with (S (Z.to_nat (occupancy st))) by lia.
  rewrite seq_S, map_app. simpl. f_equal.
  - apply map_ext_in. intros k Hk. apply in_seq in Hk.
    apply list_lookup_total_insert_ne.
    unfold occupancy, CIRC_BUFFER_SIZE in *. Z.div_mod_to_equations; lia.
  - f_equal. rewrite list_lookup_total_insert.
    destruct (decide _) as [_ | Hn]; [reflexivity | exfalso; apply Hn].
    unfold occupancy, CIRC_BUFFER_SIZE in *.
    split; [f_equal|]; Z.div_mod_to_equations; lia.
Qed.

Lemma pop_cell_ok (st : driver) : buf_ok st -> buf_ok (pop_cell st).
Proof.
  intros (Hl & Hh & Ht). unfold buf_ok, pop_cell, CIRC_BUFFER_SIZE in *. simpl.
  rewrite Z.rem_mod_nonneg by lia.
  repeat split; try lia; Z.div_mod_to_equations; lia.
Qed.

Lemma pop_cell_contents (st : driver) :
  buf_ok st -> tail st <> head st ->
  contents st = circ_buffer st !!! Z.to_nat (tail st) :: contents (pop_cell st).
Proof.
  intros (Hl & Hh & Ht) Hne. unfold contents.
  assert (Ho : occupancy (pop_cell st) = occupancy st - 1).
  { unfold occupancy, pop_cell, CIRC_BUFFER_SIZE in *. simpl.
    rewrite Z.rem_mod_nonneg by lia. Z.div_mod_to_equations; lia. }
  assert (Hp : 0 < occupancy st).
  { unfold occupancy, CIRC_BUFFER_SIZE in *. Z.div_mod_to_equations; lia. }
  rewrite Ho.
  replace (Z.to_nat (occupancy st)) with (S (Z.to_nat (occupancy st - 1))) by lia.
  simpl. f_equal.
  - f_equal. f_equal. unfold CIRC_BUFFER_SIZE in *. Z.div_mod_to_equations; lia.
  - rewrite <- seq_shift, map_map. apply map_ext. intros k.
    f_equal. f_equal. unfold pop_cell, CIRC_BUFFER_SIZE in *. simpl.
    rewrite Z.rem_mod_nonneg by lia. Z.div_mod_to_equations; lia.
Qed.

(** ** Ring buffer: the two loops *)

Lemma same_device_refl (a : driver) : same_device a a.
Proof. now repeat split. Qed.

Lemma same_device_trans (a b c : driver) :
  same_device a b -> same_device b c -> same_device a c.
Proof.
  unfold same_device. intros (?&?&?&?) (?&?&?&?). repeat split; congruence.
Qed.

Lemma push_cell_free (c : ascii) (st : driver) :
  buf_ok st -> free st <> 0%nat -> free (push_cell c st) = (free st - 1)%nat.
Proof.
  intros Hok Hf. pose proof (push_cell_occupancy c st Hok Hf) as Ho.
  pose proof (occupancy_range st). revert Hf. unfold free in *.
  rewrite Ho. unfold CIRC_BUFFER_SIZE. lia.
Qed.

Lemma circ_buffer_write_loop_spec (data : list ascii) :
  forall (i : nat) (st : driver),
    buf_ok st ->
    let r := circ_buffer_write_loop data i st in
    buf_ok (fst r) /\
    snd r = (i + Nat.min (length data) (free st))%nat /\
    contents (fst r) = contents st ++ take (free st) data /\
    free (fst r) = (free st - length data)%nat /\
    tail (fst r) = tail st /\
    circ_mutex (fst r) = circ_mutex st /\
    same_device (fst r) st /\
    ((free st < length data)%nat ->
     Z.rem (head (fst r) + 1) CIRC_BUFFER_SIZE = tail (fst r)).
Proof.
  induction data as [| c rest IH]; intros i st Hok; cbn [circ_buffer_write_loop].
  - cbn [fst snd length]. rewrite take_nil, app_nil_r.
    repeat split; try apply Hok; lia.
  - pose proof (full_iff st Hok) as Hfull.
    destruct (Z.eqb_spec (Z.rem (head st + 1) CIRC_BUFFER_SIZE) (tail st))
      as [Efull | Hroom]; cbn [fst snd length].
    + apply Hfull in Efull as Hz. rewrite Hz, take_0, app_nil_r.
      repeat split; try apply Hok; lia.
    + assert (Hf : free st <> 0%nat) by (intros Hz; apply Hroom, Hfull, Hz).
      specialize (IH (S i) (push_cell c st) (push_cell_ok c st Hok)).
      fold (push_cell c st). cbv zeta in IH.
      rewrite (push_cell_free c st Hok Hf), (push_cell_contents c st Hok Hf) in IH.
      destruct IH as (H1 & H2 & H3 & H4 & H5 & H6 & H7 & H8).
      destruct (free st) as [| f] eqn:Ef; [congruence |].
      replace (S f - 1)%nat with f in * by lia.
      split; [exact H1 |]. split; [cbn [length]; lia |].
      split; [rewrite H3, <- app_assoc; reflexivity |].
      split; [cbn [length]; lia |]. split; [exact H5 |]. split; [exact H6 |].
      split; [exact H7 |]. cbn [length]. intros Hlt. apply H8. lia.
Qed.

Lemma circ_buffer_write_spec (data : list ascii) (st : driver) :
  buf_ok st ->
  buf_ok (circ_buffer_write data st) /\
  stored data st = Nat.min (length data) (free st) /\
  contents (circ_buffer_write data st) = contents st ++ take (free st) data /\
  free (circ_buffer_write data st) = (free st - length data)%nat /\
  tail (circ_buffer_write data st) = tail st /\
  circ_mutex (circ_buffer_write data st) = false /\
  same_device (circ_buffer_write data st) st /\
  ((free st < length data)%nat ->
   Z.rem (head (circ_buffer_write data st) + 1) CIRC_BUFFER_SIZE = tail st).
Proof.
  intros Hok.
  destruct (circ_buffer_write_loop_spec data 0 (mutex_lock st) Hok)
    as (H1 & H2 & H3 & H4 & H5 & H6 & H7 & H8).
  unfold circ_buffer_write, stored.
  split; [exact H1 |]. split; [exact H2 |]. split; [exact H3 |].
  split; [exact H4 |]. split; [exact H5 |]. split; [reflexivity |].
  split; [exact H7 |]. intros Hlt. etransitivity; [exact (H8 Hlt) | exact H5].
Qed.

Lemma device_read_loop_ok (writable : nat -> bool) (remaining : nat) :
  forall (bytes_copied : nat) (ubuf : list ascii) (st : driver),
    buf_ok st ->
    (forall k : nat,
        (bytes_copied <= k < bytes_copied + remaining)%nat ->
        (k < bytes_copied + length (contents st))%nat ->
        writable k = true) ->
    exists st' : driver,
      device_read_loop writable remaining bytes_copied ubuf st
      = inl (st', (bytes_copied + Nat.min remaining (length (contents st)))%nat,
             ubuf ++ take remaining (contents st)) /\
      buf_ok st' /\
      contents st' = drop remaining (contents st) /\
      head st' = head st /\
      circ_buffer st' = circ_buffer st /\
      circ_mutex st' = circ_mutex st /\
      same_device st' st.
Proof.
  induction remaining as [| n IH]; intros bc ubuf st Hok Hw;
    cbn [device_read_loop].
  - exists st. rewrite take_0, drop_0, app_nil_r, Nat.add_0_r.
    repeat split; try apply Hok.
  - destruct (Z.eqb_spec (tail st) (head st)) as [Eempty | Hne].
    + exists st. rewrite (contents_empty st (eq_sym Eempty)).
      rewrite take_nil, drop_nil, app_nil_r. cbn [length].
      rewrite Nat.min_0_r, Nat.add_0_r. repeat split; try apply Hok.
    + pose proof (pop_cell_contents st Hok Hne) as Hc.
      rewrite Hw by (try rewrite Hc; cbn [length]; lia). cbn [negb].
      fold (pop_cell st).
      destruct (IH (S bc) (ubuf ++ [circ_buffer st !!! Z.to_nat (tail st)])
                  (pop_cell st) (pop_cell_ok st Hok))
        as (st' & E & H1 & H2 & H3 & H4 & H5 & H6).
      { intros k Hk1 Hk2. apply Hw; [lia |]. rewrite Hc. simpl. lia. }
      exists st'. rewrite E, Hc. simpl. rewrite <- app_assoc. simpl.
      split; [do 3 f_equal; lia |].
      split; [exact H1 |]. split; [exact H2 |]. split; [exact H3 |].
      split; [exact H4 |]. split; [exact H5 | exact H6].
Qed.

Lemma device_read_loop_fault (writable : nat -> bool) (i : nat) :
  forall (remaining bytes_copied : nat) (ubuf : list ascii) (st : driver),
    buf_ok st ->
    (i < remaining)%nat ->
    (i < length (contents st))%nat ->
    (forall k : nat, (bytes_copied <= k < bytes_copied + i)%nat -> writable k = true) ->
    writable (bytes_copied + i)%nat = false ->
    exists st' : driver,
      device_read_loop writable remaining bytes_copied ubuf st
      = inr (st', ubuf ++ take i (contents st)) /\
      buf_ok st' /\
      contents st' = drop i (contents st) /\
      head st' = head st /\
      circ_buffer st' = circ_buffer st /\
      circ_mutex st' = circ_mutex st /\
      same_device st' st /\
      tail st' = (tail st + Z.of_nat i) mod CIRC_BUFFER_SIZE.
Proof.
  induction i as [| i IH]; intros remaining bc ubuf st Hok Hr Hl Hw Hf;
    (destruct remaining as [| n]; [lia |]); cbn [device_read_loop];
    (destruct (Z.eqb_spec (tail st) (head st)) as [Eempty | Hne];
     [rewrite (contents_empty st (eq_sym Eempty)) in Hl; simpl in Hl; lia |]).
  - rewrite Nat.add_0_r in Hf. rewrite Hf. cbn [negb]. exists st.
    rewrite take_0, drop_0, app_nil_r. repeat split; try apply Hok.
    destruct Hok as (_ & _ & Ht). unfold CIRC_BUFFER_SIZE in *.
    rewrite Z.add_0_r, Z.mod_small; lia.
  - pose proof (pop_cell_contents st Hok Hne) as Hc.
    rewrite Hw by lia. cbn [negb]. fold (pop_cell st).
    destruct (IH n (S bc) (ubuf ++ [circ_buffer st !!! Z.to_nat (tail st)])
                (pop_cell st) (pop_cell_ok st Hok))
      as (st' & E & H1 & H2 & H3 & H4 & H5 & H6 & H7).
    + lia.
    + rewrite Hc in Hl. simpl in Hl. lia.
    + intros k Hk. apply Hw. lia.
    + rewrite <- Hf. f_equal. lia.
    + exists st'. rewrite E, Hc. simpl. rewrite <- app_assoc. simpl.
      split; [reflexivity |].
      split; [exact H1 |]. split; [exact H2 |]. split; [exact H3 |].
      split; [exact H4 |]. split; [exact H5 |]. split; [exact H6 |].
      rewrite H7. destruct Hok as (_ & _ & Ht).
      unfold pop_cell, CIRC_BUFFER_SIZE in *. cbn [tail set_tail].
      rewrite Z.rem_mod_nonneg by lia. Z.div_mod_to_equations; lia.
Qed.

Lemma empty_free (st : driver) :
  head st = tail st -> free st = 1023%nat /\ contents st = [].
Proof.
  intros E. split; [| now apply contents_empty].
  unfold free, occupancy, CIRC_BUFFER_SIZE. rewrite E.
  replace (tail st - tail st + 1024) with 1024 by lia. reflexivity.
Qed.

Lemma free_contents (st : driver) :
  (free st + length (contents st) = 1023)%nat.
Proof.
  rewrite length_contents. pose proof (occupancy_range st).
  unfold free, CIRC_BUFFER_SIZE. lia.
Qed.

(** Whatever the user buffer is like, the read loop leaves the indices in
    range and touches neither [head] nor the rest of the driver. *)
Lemma device_read_loop_frame (writable : nat -> bool) (remaining : nat) :
  forall (bytes_copied : nat) (ubuf : list ascii) (st : driver),
    buf_ok st ->
    let st' :=
      match device_read_loop writable remaining bytes_copied ubuf st with
      | inl (st', _, _) => st'
      | inr (st', _) => st'
      end in
    buf_ok st' /\ head st' = head st /\ circ_mutex st' = circ_mutex st /\
    same_device st' st.
Proof.
  induction remaining as [| n IH]; intros bc ubuf st Hok;
    cbn [device_read_loop].
  - repeat split; apply Hok.
  - destruct (tail st =? head st); [repeat split; apply Hok |].
    destruct (negb (writable bc)); [repeat split; apply Hok |].
    apply (IH (S bc) _ (pop_cell st) (pop_cell_ok st Hok)).
Qed.

Lemma device_read_frame (writable : nat -> bool) (count : nat) (st : driver) :
  buf_ok st ->
  let st' := (device_read writable count st).1.1 in
  buf_ok st' /\ head st' = head st /\ circ_mutex st' = false /\
  same_device st' st.
Proof.
  intros Hok. unfold device_read.
  pose proof (device_read_loop_frame writable count 0 [] (mutex_lock st) Hok) as H.
  destruct (device_read_loop writable count 0 [] (mutex_lock st))
    as [[[st' n] ubuf] | [st' ubuf]]; cbn [fst snd] in *;
    destruct H as (H1 & H2 & H3 & H4);
    (split; [exact H1 |]; split; [exact H2 |]; split; [reflexivity | exact H4]).
Qed.

(** A read into a buffer that can take every byte it is given. *)
Lemma device_read_ok (writable : nat -> bool) (count : nat) (st : driver) :
  buf_ok st ->
  (forall k : nat,
      (k < count)%nat -> (k < length (contents st))%nat -> writable k = true) ->
  exists st' : driver,
    device_read writable count st
    = (st', Z.of_nat (Nat.min count (length (contents st))),
       take count (contents st)) /\
    buf_ok st' /\
    contents st' = drop count (contents st) /\
    head st' = head st /\
    circ_mutex st' = false /\
    same_device st' st.
Proof.
  intros Hok Hw.
  destruct (device_read_loop_ok writable count 0 [] (mutex_lock st) Hok)
    as (st' & E & H1 & H2 & H3 & H4 & H5 & H6).
  { intros k Hk1 Hk2. apply Hw; [lia | exact Hk2]. }
  exists (mutex_unlock st'). unfold device_read. rewrite E.
  split; [reflexivity |]. split; [exact H1 |]. split; [exact H2 |].
  split; [exact H3 |]. split; [reflexivity | exact H6].
Qed.

(** A read whose copy of the byte at offset [i] is the first to fault. *)
Lemma device_read_fault (writable : nat -> bool) (count i : nat) (st : driver) :
  buf_ok st ->
  (i < count)%nat ->
  (i < length (contents st))%nat ->
  (forall k : nat, (k < i)%nat -> writable k = true) ->
  writable i = false ->
  exists st' : driver,
    device_read writable count st = (st', - EFAULT, take i (contents st)) /\
    buf_ok st' /\
    contents st' = drop i (contents st) /\
    head st' = head st /\
    circ_mutex st' = false /\
    same_device st' st /\
    tail st' = (tail st + Z.of_nat i) mod CIRC_BUFFER_SIZE.
Proof.
  intros Hok Hc Hl Hw Hf.
  destruct (device_read_loop_fault writable i count 0 [] (mutex_lock st) Hok Hc Hl)
    as (st' & E & H1 & H2 & H3 & H4 & H5 & H6 & H7).
  { intros k Hk. apply Hw. lia. }
  { exact Hf. }
  exists (mutex_unlock st'). unfold device_read. rewrite E.
  split; [reflexivity |]. split; [exact H1 |]. split; [exact H2 |].
  split; [exact H3 |]. split; [reflexivity |]. split; [exact H6 | exact H7].
Qed.

(** ** Text formatting never cuts a line *)

Lemma snprintf_at_fits (s : string) (text : list ascii) :
  Z.of_nat (length text) + Z.of_nat (length (list_ascii_of_string s)) <= 255 ->
  snprintf_at 256 s (text, Z.of_nat (length text))
  = (text ++ list_ascii_of_string s,
     Z.of_nat (length (text ++ list_ascii_of_string s))).
Proof.
  intros Hfit. unfold snprintf_at, snprintf, INT_MAX.
  rewrite Z.mod_small by lia.
  destruct (Z.ltb_spec 2147483647 (256 - Z.of_nat (length text))); [lia |].
  destruct (Z.eqb_spec (256 - Z.of_nat (length text)) 0); [lia |].
  rewrite Nat2Z.id, firstn_all, take_ge by lia.
  rewrite length_app. f_equal. lia.
Qed.

Lemma emitted_length (byte mask : Z) (tok : string) :
  (length (emitted byte mask tok) <= length (list_ascii_of_string tok))%nat.
Proof. unfold emitted. destruct (negb _); simpl; lia. Qed.

Lemma map_button_fits (byte mask : Z) (tok : string) (text : list ascii) :
  Z.of_nat (length text) + Z.of_nat (length (list_ascii_of_string tok)) <= 255 ->
  map_button byte mask tok (text, Z.of_nat (length text))
  = (text ++ emitted byte mask tok,
     Z.of_nat (length (text ++ emitted byte mask tok))).
Proof.
  intros Hfit. unfold map_button, emitted.
  destruct (negb (Z.land byte mask =? 0)).
  - now apply snprintf_at_fits.
  - now rewrite app_nil_r.
Qed.

Lemma report_prefix_length (report_id : byte) :
  (14 <= length (list_ascii_of_string (report_prefix report_id)) <= 16)%nat.
Proof. destruct report_id; vm_compute; lia. Qed.

Ltac bound_emitted :=
  rewrite ?length_app;
  repeat match goal with
    | |- context [length (emitted ?b ?m ?t)] =>
        let H := fresh "Hlen" in
        pose proof (emitted_length b m t) as H;
        cbn [list_ascii_of_string length] in H;
        generalize dependent (length (emitted b m t)); intros
    end;
  cbn [list_ascii_of_string length]; lia.

(** The line of a button report, token by token. *)
Lemma mapped_event_emitted (report_id btn_byte1 btn_byte2 : byte) :
  mapped_event report_id btn_byte1 btn_byte2
  = list_ascii_of_string (report_prefix report_id)
    ++ emitted (u8 btn_byte1) 0x01 "Dpad_Left"
    ++ emitted (u8 btn_byte1) 0x02 "Dpad_Right "
    ++ emitted (u8 btn_byte1) 0x04 "Dpad_Down "
    ++ emitted (u8 btn_byte1) 0x08 "Dpad_Up "
    ++ emitted (u8 btn_byte1) 0x10 "Plus "
    ++ emitted (u8 btn_byte2) 0x10 "Minus "
    ++ emitted (u8 btn_byte2) 0x80 "Home "
    ++ emitted (u8 btn_byte2) 0x01 "2 "
    ++ emitted (u8 btn_byte2) 0x02 "1 "
    ++ emitted (u8 btn_byte2) 0x04 "B "
    ++ emitted (u8 btn_byte2) 0x08 "A"
    ++ [newline].
Proof.
  pose proof (report_prefix_length report_id) as Hp.
  unfold mapped_event, mapping_output. cbv zeta.
  fold (report_prefix report_id).
  change (@nil ascii, 0) with (@nil ascii, Z.of_nat (length (@nil ascii))).
  rewrite snprintf_at_fits by (cbn [length]; lia).
  rewrite app_nil_l.
  do 11 (rewrite map_button_fits by bound_emitted).
  match goal with
  | |- context [(?T, Z.of_nat (length ?T))] =>
      assert (Hlen : (14 <= length T <= 254)%nat)
        by (split; [rewrite !length_app; lia | bound_emitted]);
      set (text := T) in *
  end.
  cbn [fst snd].
  destruct (Z.eqb_spec (Z.of_nat (length text)) 0); [lia |].
  cbn [fst snd]. rewrite (proj2 (Z.ltb_lt _ _)) by lia.
  cbn [fst snd].
  rewrite Nat2Z.id, firstn_all.
  rewrite take_ge by (rewrite length_app; cbn [length]; lia).
  subst text. rewrite <- !app_assoc. reflexivity.
Qed.

(** ** The invariant of the driver *)

Lemma driver_inv_init : driver_inv init.
Proof.
  unfold driver_inv, buf_ok, init, CIRC_BUFFER_SIZE. cbn -[replicate].
  rewrite length_replicate. repeat split; try lia. right. now split.
Qed.

Lemma driver_inv_transfer (st st' : driver) :
  buf_ok st' -> circ_mutex st' = false -> same_device st' st ->
  driver_inv st -> driver_inv st'.
Proof.
  intros Hok Hm (E1 & E2 & E3 & E4) (_ & _ & Hc & Hb).
  unfold driver_inv. rewrite E1, E2, E3. auto.
Qed.

Lemma circ_buffer_write_inv (data : list ascii) (st : driver) :
  driver_inv st -> driver_inv (circ_buffer_write data st).
Proof.
  intros Hinv. pose proof Hinv as (Hok & _).
  destruct (circ_buffer_write_spec data st Hok) as (H1 & _ & _ & _ & _ & H6 & H7 & _).
  now apply (driver_inv_transfer st).
Qed.

Lemma u8_range (b : byte) : 0 <= u8 b <= 255.
Proof. unfold u8. pose proof (Byte.to_N_bounded b). lia. Qed.

Lemma wii_raw_event_inv (data : list byte) (st : driver) :
  driver_inv st -> driver_inv (wii_raw_event data st).1.
Proof.
  intros Hinv. unfold wii_raw_event, perform_input_mapping.
  destruct (_ && _).
  - destruct (2 <=? _); [| exact Hinv]. cbn [fst].
    apply circ_buffer_write_inv.
    destruct Hinv as (Hok & Hm & Hc & _).
    split; [exact Hok |]. split; [exact Hm |]. split; [exact Hc |].
    right. apply u8_range.
  - cbn [fst]. destruct (_ <? 3); [exact Hinv |].
    now apply circ_buffer_write_inv.
Qed.

Lemma step_inv (st : driver) (o : op) : driver_inv st -> driver_inv (step st o).
Proof.
  intros Hinv. destruct o as [hdev pr sr | hdev | data | data | w n | hw cmd];
    cbn [step].
  - unfold wii_probe. destruct (negb (pr =? 0)); [exact Hinv |].
    destruct (negb (sr =? 0)); [exact Hinv |].
    destruct Hinv as (Hok & Hm & _ & Hb).
    split; [exact Hok |]. split; [exact Hm |]. split; [| exact Hb].
    left. split; [reflexivity | discriminate].
  - destruct Hinv as (Hok & Hm & _ & Hb).
    split; [exact Hok |]. split; [exact Hm |]. split; [| exact Hb].
    right. split; reflexivity.
  - now apply wii_raw_event_inv.
  - now apply circ_buffer_write_inv.
  - pose proof Hinv as (Hok & _).
    destruct (device_read_frame w n st Hok) as (H1 & _ & H3 & H4).
    now apply (driver_inv_transfer st).
  - unfold device_ioctl. destruct (cmd =? _); [| exact Hinv].
    destruct (wii_hid_dev st); exact Hinv.
Qed.

Lemma run_inv (ops : list op) :
  forall st : driver, driver_inv st -> driver_inv (run ops st).
Proof.
  unfold run. induction ops as [| o ops IH]; intros st Hinv; cbn [fold_left].
  - exact Hinv.
  - apply IH, step_inv, Hinv.
Qed.

(** C1.  Whatever sequence of operations the module has gone through since
    it was loaded -- writes to the ring buffer and reads from the device in
    any interleaving, also reads that fault, reports, probes, removals and
    ioctls -- [head] and [tail] lie in [0, 1024) and the occupied byte count
    [(head - tail + 1024) % 1024], which is the number of unread bytes, is
    at most 1023. *)
Theorem ring_indices_in_range (ops : list op) :
  let st := run ops init in
  0 <= head st < CIRC_BUFFER_SIZE /\
  0 <= tail st < CIRC_BUFFER_SIZE /\
  (head st - tail st + CIRC_BUFFER_SIZE) mod CIRC_BUFFER_SIZE
    <= CIRC_BUFFER_SIZE - 1 /\
  Z.of_nat (length (contents st))
    = (head st - tail st + CIRC_BUFFER_SIZE) mod CIRC_BUFFER_SIZE.
Proof.
  intros st.
  destruct (run_inv ops init driver_inv_init) as ((_ & Hh & Ht) & _).
  fold st in Hh, Ht. pose proof (occupancy_range st) as Ho.
  split; [exact Hh |]. split; [exact Ht |]. split.
  - fold (occupancy st). unfold CIRC_BUFFER_SIZE. lia.
  - rewrite length_contents. fold (occupancy st). lia.
Qed.

(** ** First in, first out *)

Lemma contents_nil_empty (st : driver) :
  buf_ok st -> contents st = [] -> head st = tail st.
Proof.
  intros (_ & Hh & Ht) E. apply (f_equal length) in E.
  rewrite length_contents in E. cbn [length] in E.
  pose proof (occupancy_range st) as Hr.
  unfold occupancy, CIRC_BUFFER_SIZE in *. Z.div_mod_to_equations; lia.
Qed.

Lemma write_all_no_drop (ws : list (list ascii)) :
  forall st : driver,
    buf_ok st -> no_drop ws st ->
    buf_ok (write_all ws st) /\
    contents (write_all ws st) = contents st ++ concat ws /\
    tail (write_all ws st) = tail st /\
    same_device (write_all ws st) st.
Proof.
  unfold write_all.
  induction ws as [| w ws IH]; intros st Hok Hnd; cbn [fold_left concat].
  - rewrite app_nil_r. repeat split; apply Hok.
  - destruct Hnd as (Hst & Hnd).
    destruct (circ_buffer_write_spec w st Hok)
      as (H1 & H2 & H3 & _ & H5 & _ & H7 & _).
    destruct (IH _ H1 Hnd) as (I1 & I2 & I3 & I4).
    split; [exact I1 |]. split; [| split].
    + rewrite I2, H3, take_ge by lia. now rewrite app_assoc.
    + congruence.
    + exact (same_device_trans _ _ _ I4 H7).
Qed.

Lemma chunks_concat (counts : list nat) :
  forall l : list ascii, concat (chunks counts l) = take (sum_list counts) l.
Proof.
  induction counts as [| n counts IH]; intros l; cbn [chunks concat sum_list].
  - now rewrite take_0.
  - rewrite IH. apply take_take_drop.
Qed.

Lemma read_all_chunks (reads : list ((nat -> bool) * nat)) :
  forall st : driver,
    buf_ok st ->
    Forall (fun rd => forall k : nat, rd.1 k = true) reads ->
    let res := read_all reads st in
    buf_ok res.1 /\
    contents res.1 = drop (sum_list (map snd reads)) (contents st) /\
    map snd res.2 = chunks (map snd reads) (contents st) /\
    Forall2 (fun rd o => o.1 = Z.of_nat (length o.2) /\ (length o.2 <= rd.2)%nat)
            reads res.2.
Proof.
  induction reads as [| [w n] reads IH]; intros st Hok Hw;
    cbn [read_all map chunks sum_list fst snd].
  - rewrite drop_0. repeat split; try apply Hok. constructor.
  - apply Forall_cons in Hw as (Hw1 & Hw).
    destruct (device_read_ok w n st Hok) as (st' & E & H1 & H2 & _).
    { intros k _ _. apply Hw1. }
    rewrite E. cbn [fst snd].
    destruct (IH st' H1 Hw) as (I1 & I2 & I3 & I4).
    split; [exact I1 |]. split; [| split].
    + rewrite I2, H2, drop_drop. reflexivity.
    + rewrite I3, H2. reflexivity.
    + constructor; [| exact I4]. cbn [fst snd].
      rewrite length_take. split; lia.
Qed.

(** C2.  Take writes [ws], none of which drops a byte, on a buffer holding
    [contents st], and then reads with counts [map snd reads] into user
    buffers that accept every byte.  The buffer holds the old bytes followed
    by [w1 ++ w2 ++ ...]; the reads deliver exactly that sequence, oldest
    byte first, cut into pieces of at most the requested sizes; each read
    returns the number of bytes it delivered; and once everything has been
    delivered a further read returns 0 and delivers nothing, whatever its
    count and user buffer. *)
Theorem fifo_order (st : driver) (ws : list (list ascii))
    (reads : list ((nat -> bool) * nat)) :
  buf_ok st ->
  no_drop ws st ->
  Forall (fun rd => forall k : nat, rd.1 k = true) reads ->
  let st1 := write_all ws st in
  let res := read_all reads st1 in
  let fifo := contents st ++ concat ws in
  contents st1 = fifo /\
  map snd res.2 = chunks (map snd reads) fifo /\
  concat (map snd res.2) = take (sum_list (map snd reads)) fifo /\
  Forall2 (fun rd o => o.1 = Z.of_nat (length o.2) /\ (length o.2 <= rd.2)%nat)
          reads res.2 /\
  ((length fifo <= sum_list (map snd reads))%nat ->
   forall (writable : nat -> bool) (count : nat),
     (device_read writable count res.1).1.2 = 0 /\
     (device_read writable count res.1).2 = []).
Proof.
  intros Hok Hnd Hw st1 res fifo.
  destruct (write_all_no_drop ws st Hok Hnd) as (W1 & W2 & _).
  fold st1 in W1, W2. fold fifo in W2.
  destruct (read_all_chunks reads st1 W1 Hw) as (R1 & R2 & R3 & R4).
  fold res in R1, R2, R3, R4. rewrite W2 in R2, R3.
  split; [exact W2 |]. split; [exact R3 |]. split; [| split; [exact R4 |]].
  - rewrite R3. apply chunks_concat.
  - intros Hall writable count.
    rewrite drop_ge in R2 by exact Hall.
    destruct (device_read_ok writable count res.1 R1) as (st' & E & _).
    { intros k _ Hk. rewrite R2 in Hk. cbn [length] in Hk. lia. }
    rewrite E, R2. cbn [fst snd length]. rewrite Nat.min_0_r, take_nil. now split.
Qed.

(** C3.  A write of more bytes than there is room for stores the first
    [free st] of them behind the unread bytes, which stay as they were, and
    leaves the loop when the next advance of [head] would reach [tail]: the
    buffer then holds 1023 bytes.  The function returns nothing, touches
    nothing outside the ring buffer and releases the mutex; reading
    afterwards delivers the old bytes and then the stored prefix only. *)
Theorem overflow_drop (st : driver) (data : list ascii) :
  buf_ok st ->
  (free st < length data)%nat ->
  let st' := circ_buffer_write data st in
  stored data st = free st /\
  contents st' = contents st ++ take (free st) data /\
  length (contents st') = 1023%nat /\
  Z.rem (head st' + 1) CIRC_BUFFER_SIZE = tail st' /\
  tail st' = tail st /\
  circ_mutex st' = false /\
  same_device st' st /\
  forall (writable : nat -> bool) (count : nat),
    (forall k : nat, writable k = true) ->
    (device_read writable count st').1.2 = Z.of_nat (Nat.min count 1023) /\
    (device_read writable count st').2
    = take count (contents st ++ take (free st) data).
Proof.
  intros Hok Hlt st'.
  destruct (circ_buffer_write_spec data st Hok)
    as (H1 & H2 & H3 & H4 & H5 & H6 & H7 & H8).
  fold st' in H1, H3, H4, H5, H6, H7, H8.
  assert (Hfull : length (contents st') = 1023%nat).
  { pose proof (free_contents st'). lia. }
  split; [lia |]. split; [exact H3 |]. split; [exact Hfull |].
  split; [rewrite H5; exact (H8 Hlt) |]. split; [exact H5 |].
  split; [exact H6 |]. split; [exact H7 |].
  intros writable count Hw.
  destruct (device_read_ok writable count st' H1) as (st2 & E & _).
  { intros k _ _. apply Hw. }
  rewrite E, Hfull, H3. cbn [fst snd]. now split.
Qed.

(** C10.  When the copy of the byte at offset [i] is the first to fault,
    the read returns [-EFAULT] although the [i] bytes before it have reached
    the user buffer and have left the ring buffer: [tail] has moved past
    them.  The byte whose copy failed is still the oldest unread byte, the
    indices are sound, the mutex is free again, and a later read into a good
    buffer starts at that byte. *)
Theorem read_fault_consumes (st : driver) (writable : nat -> bool)
    (count i : nat) :
  buf_ok st ->
  (i < count)%nat ->
  (i < length (contents st))%nat ->
  (forall k : nat, (k < i)%nat -> writable k = true) ->
  writable i = false ->
  let r := device_read writable count st in
  r.1.2 = - EFAULT /\
  r.2 = take i (contents st) /\
  tail r.1.1 = (tail st + Z.of_nat i) mod CIRC_BUFFER_SIZE /\
  contents r.1.1 = drop i (contents st) /\
  contents r.1.1 !! 0%nat = contents st !! i /\
  contents r.1.1 <> [] /\
  buf_ok r.1.1 /\
  head r.1.1 = head st /\
  circ_mutex r.1.1 = false /\
  forall (writable' : nat -> bool) (count' : nat),
    (forall k : nat, writable' k = true) ->
    (device_read writable' count' r.1.1).1.2
    = Z.of_nat (Nat.min count' (length (contents st) - i)) /\
    (device_read writable' count' r.1.1).2 = take count' (drop i (contents st)).
Proof.
  intros Hok Hc Hl Hw Hf r.
  destruct (device_read_fault writable count i st Hok Hc Hl Hw Hf)
    as (st' & E & H1 & H2 & H3 & H4 & _ & H6).
  subst r. rewrite E. cbn [fst snd].
  split; [reflexivity |]. split; [reflexivity |]. split; [exact H6 |].
  split; [exact H2 |].
  split; [rewrite H2, lookup_drop; f_equal; lia |].
  split.
  { intros En. apply (f_equal length) in En.
    rewrite H2, length_drop in En. cbn [length] in En. lia. }
  split; [exact H1 |]. split; [exact H3 |]. split; [exact H4 |].
  intros writable' count' Hw'.
  destruct (device_read_ok writable' count' st' H1) as (st2 & E2 & _).
  { intros k _ _. apply Hw'. }
  rewrite E2, H2, length_drop. cbn [fst snd]. now split.
Qed.

(** ** The decoder against the table *)

Lemma mask_is_bit (b : byte) :
  negb (Z.land (u8 b) 0x01 =? 0) = bit_set b 0 /\
  negb (Z.land (u8 b) 0x02 =? 0) = bit_set b 1 /\
  negb (Z.land (u8 b) 0x04 =? 0) = bit_set b 2 /\
  negb (Z.land (u8 b) 0x08 =? 0) = bit_set b 3 /\
  negb (Z.land (u8 b) 0x10 =? 0) = bit_set b 4 /\
  negb (Z.land (u8 b) 0x80 =? 0) = bit_set b 7.
Proof. destruct b; vm_compute; repeat split. Qed.

Lemma list_ascii_of_string_app (s t : string) :
  list_ascii_of_string (s ++ t)
  = list_ascii_of_string s ++ list_ascii_of_string t.
Proof. induction s as [| c s IH]; simpl; [reflexivity | now rewrite IH]. Qed.

(** The line of a button report is the prefix, the tokens of the set bits
    in table order, each with its terminator and nothing after [Dpad_Left],
    and a newline. *)
Lemma mapped_event_terminated (report_id btn_byte1 btn_byte2 : byte) :
  mapped_event report_id btn_byte1 btn_byte2
  = terminated_line EmptyString report_id btn_byte1 btn_byte2.
Proof.
  rewrite mapped_event_emitted. unfold terminated_line.
  rewrite list_ascii_of_string_app, <- app_assoc. f_equal.
  unfold emitted, pressed_tokens, button_table.
  destruct (mask_is_bit btn_byte1) as (E0 & E1 & E2 & E3 & E4 & _).
  destruct (mask_is_bit btn_byte2) as (F0 & F1 & F2 & F3 & F4 & F7).
  rewrite E0, E1, E2, E3, E4, F0, F1, F2, F3, F4, F7.
  cbn [List.filter pressed].
  destruct (bit_set btn_byte1 0), (bit_set btn_byte1 1), (bit_set btn_byte1 2),
    (bit_set btn_byte1 3), (bit_set btn_byte1 4), (bit_set btn_byte2 4),
    (bit_set btn_byte2 7), (bit_set btn_byte2 0), (bit_set btn_byte2 1),
    (bit_set btn_byte2 2), (bit_set btn_byte2 3); reflexivity.
Qed.

(** C4.  For every report identifier the report [id, 0x00, 0x00] is mapped
    to the line "Report: ID=<id>, " and a newline: [len] is already past the
    prefix when it is compared with 0, so the text "No buttons pressed" is
    never written. *)
Theorem no_buttons_line (report_id : byte) :
  mapped_event report_id x00 x00
  = list_ascii_of_string (report_prefix report_id) ++ [newline] /\
  mapped_event report_id x00 x00
  <> list_ascii_of_string "No buttons pressed" ++ [newline] /\
  contents (perform_input_mapping [report_id; x00; x00] init)
  = list_ascii_of_string (report_prefix report_id) ++ [newline].
Proof.
  assert (E : mapped_event report_id x00 x00
              = list_ascii_of_string (report_prefix report_id) ++ [newline]).
  { rewrite mapped_event_emitted. reflexivity. }
  pose proof (report_prefix_length report_id) as Hp.
  split; [exact E |]. split.
  - rewrite E. intros Habs. apply (f_equal length) in Habs.
    rewrite length_app in Habs. revert Habs.
    destruct report_id; vm_compute; discriminate.
  - unfold perform_input_mapping. cbn [length nth Z.of_nat].
    change (Z.of_nat 3 <? 3) with false. cbv iota.
    destruct (circ_buffer_write_spec (mapped_event report_id x00 x00) init
                (proj1 driver_inv_init)) as (_ & _ & H3 & _).
    rewrite H3, E, take_ge; [reflexivity |].
    rewrite length_app. cbn [length]. change (free init) with 1023%nat. lia.
Qed.

(** C5 (amended).  For a report with at least one of the eleven button bits
    set, the line is "Report: ID=<id>, ", then the tokens of exactly the set
    bits in the order of the table, then a newline.  Each of Dpad_Right,
    Dpad_Down, Dpad_Up, Plus, Minus, Home, 2, 1 and B is followed by one
    space, also when no token follows it; A, the last of the table, is
    followed by none; what follows Dpad_Left is at most one space. *)
Theorem button_tokens_terminated (report_id btn_byte1 btn_byte2 : byte) :
  pressed_tokens btn_byte1 btn_byte2 <> [] ->
  exists after_left : string,
    (after_left = EmptyString \/ after_left = " "%string) /\
    mapped_event report_id btn_byte1 btn_byte2
    = terminated_line after_left report_id btn_byte1 btn_byte2.
Proof.
  intros _. exists EmptyString. split; [now left |].
  apply mapped_event_terminated.
Qed.

(** ** Scenarios *)

Lemma button_event_text :
  mapped_event x31 x01 x08
  = list_ascii_of_string "Report: ID=49, Dpad_LeftA" ++ [newline].
Proof. vm_compute. reflexivity. Qed.

Lemma battery_event_text :
  battery_output x2a = list_ascii_of_string "Battery: 42" ++ [newline].
Proof. vm_compute. reflexivity. Qed.

(** Writing a short event to an empty buffer and reading it back. *)
Lemma write_then_read (ev : list ascii) (st : driver)
    (writable : nat -> bool) (count : nat) :
  buf_ok st -> head st = tail st ->
  (length ev <= count)%nat -> (length ev <= 1023)%nat ->
  (forall k : nat, writable k = true) ->
  let r := device_read writable count (circ_buffer_write ev st) in
  r.1.2 = Z.of_nat (length ev) /\ r.2 = ev /\ contents r.1.1 = [] /\
  same_device r.1.1 st.
Proof.
  intros Hok Hempty Hc Hl Hw r.
  destruct (empty_free st Hempty) as (Hf & Hnil).
  destruct (circ_buffer_write_spec ev st Hok) as (H1 & _ & H3 & _ & _ & _ & H7 & _).
  rewrite Hnil, Hf, take_ge in H3 by lia. cbn [app] in H3.
  destruct (device_read_ok writable count _ H1) as (st' & E & _ & R2 & _ & _ & R5).
  { intros k _ _. apply Hw. }
  subst r. rewrite E, H3. cbn [fst snd].
  split; [f_equal; lia |]. split; [apply take_ge; lia |].
  split; [rewrite R2, H3; apply drop_ge; lia |].
  exact (same_device_trans _ _ _ R5 H7).
Qed.

(** C6.  On an empty buffer, the report [0x31, 0x01, 0x08] followed by a
    read of at least 26 bytes into a good user buffer delivers exactly
    "Report: ID=49, Dpad_LeftA" and a newline, and returns 26. *)
Theorem button_scenario (st : driver) (writable : nat -> bool) (count : nat) :
  buf_ok st ->
  head st = tail st ->
  (forall k : nat, writable k = true) ->
  (26 <= count)%nat ->
  let ev := wii_raw_event [x31; x01; x08] st in
  let r := device_read writable count ev.1 in
  ev.2 = 0 /\
  r.1.2 = 26 /\
  r.2 = list_ascii_of_string "Report: ID=49, Dpad_LeftA" ++ [newline] /\
  contents r.1.1 = [].
Proof.
  intros Hok Hempty Hw Hc ev r.
  change ev with (circ_buffer_write (mapped_event x31 x01 x08) st, 0) in *.
  subst r. cbn [fst snd]. rewrite button_event_text.
  destruct (write_then_read
              (list_ascii_of_string "Report: ID=49, Dpad_LeftA" ++ [newline])
              st writable count Hok Hempty) as (R1 & R2 & R3 & _);
    try exact Hw; try (cbn [list_ascii_of_string length app]; lia).
  split; [reflexivity |]. split; [exact R1 |]. split; [exact R2 | exact R3].
Qed.

(** C7.  With a device attached and the transport accepting the request,
    the status ioctl returns the transport's non-negative answer after
    handing it one request: report number 0x15, the two bytes
    [0x15, 0x00], an output report, SET_REPORT.  The report [0x20, 42] that
    follows caches battery level 42 and leaves the device connected; on a
    buffer that was empty, a read of at least 12 bytes then delivers
    "Battery: 42" and a newline. *)
Theorem status_round_trip (st : driver) (hw_ret : Z)
    (writable : nat -> bool) (count : nat) :
  driver_inv st ->
  wii_connected st = 1 ->
  head st = tail st ->
  0 <= hw_ret ->
  (forall k : nat, writable k = true) ->
  (12 <= count)%nat ->
  let io := device_ioctl hw_ret WIIMOTE_IOCTL_REQUEST_STATUS st in
  let st2 := (wii_raw_event [x20; x2a] io.1).1 in
  let r := device_read writable count st2 in
  io.2 = hw_ret /\ 0 <= io.2 /\
  (exists dev : hid_device,
      wii_hid_dev st = Some dev /\
      hw_requests io.1
      = hw_requests st
        ++ [mkRequest dev x15 [x15; x00] 2 HID_OUTPUT_REPORT HID_REQ_SET_REPORT]) /\
  wii_connected st2 = 1 /\
  wii_hid_dev st2 = wii_hid_dev st /\
  wii_last_battery st2 = 42 /\
  r.1.2 = 12 /\
  r.2 = list_ascii_of_string "Battery: 42" ++ [newline].
Proof.
  intros (Hok & _ & Hconn & _) Hc Hempty Hret Hw Hcount. cbv zeta.
  destruct Hconn as [(_ & Hdev) | (Hz & _)]; [| lia].
  destruct (wii_hid_dev st) as [dev |] eqn:Edev; [| congruence].
  set (rq := mkRequest dev x15 [x15; x00] 2 HID_OUTPUT_REPORT HID_REQ_SET_REPORT).
  assert (Eio : device_ioctl hw_ret WIIMOTE_IOCTL_REQUEST_STATUS st
                = (push_hw_request rq st, hw_ret)).
  { unfold device_ioctl. rewrite Z.eqb_refl, Edev. reflexivity. }
  rewrite Eio. cbn [fst snd].
  set (st1 := set_wii_last_battery (u8 x2a) (push_hw_request rq st)).
  change (wii_raw_event [x20; x2a] (push_hw_request rq st))
    with (circ_buffer_write (battery_output x2a) st1, 0).
  cbn [fst snd].
  destruct (write_then_read (battery_output x2a) st1 writable count)
    as (R1 & R2 & _ & _);
    try exact Hok; try exact Hempty; try exact Hw;
    try (rewrite battery_event_text; cbn [list_ascii_of_string length app]; lia).
  destruct (circ_buffer_write_spec (battery_output x2a) st1 Hok)
    as (_ & _ & _ & _ & _ & _ & (S1 & S2 & S3 & _) & _).
  split; [reflexivity |]. split; [exact Hret |].
  split; [exists dev; split; reflexivity |].
  split; [rewrite S2; exact Hc |]. split; [rewrite S1; exact Edev |].
  split; [rewrite S3; reflexivity |].
  rewrite R1, R2, battery_event_text. split; reflexivity.
Qed.

(** C8 (amended).  In every state the module can be in, the status ioctl
    fails with [-ENODEV] without handing anything to the transport exactly
    when no device is connected; the whole state is then as it was, so
    nothing is tried again.  When a device is connected the request is
    handed over once and the transport's answer is returned unchanged: the
    caller then sees [-ENODEV] only if the transport itself answers it,
    and with any other answer of the transport the return value is
    [-ENODEV] exactly when no device is connected.  The connected flag is
    0 exactly when the device pointer is NULL. *)
Theorem no_device_iff_disconnected (ops : list op) (hw_ret : Z) :
  let st := run ops init in
  let io := device_ioctl hw_ret WIIMOTE_IOCTL_REQUEST_STATUS st in
  (io.2 = - ENODEV /\ hw_requests io.1 = hw_requests st
   <-> wii_connected st = 0) /\
  (hw_ret <> - ENODEV -> (io.2 = - ENODEV <-> wii_connected st = 0)) /\
  (wii_connected st = 0 <-> wii_hid_dev st = None) /\
  (wii_connected st = 0 -> io.1 = st) /\
  (wii_connected st <> 0 ->
   io.2 = hw_ret /\
   length (hw_requests io.1) = S (length (hw_requests st))).
Proof.
  intros st io.
  destruct (run_inv ops init driver_inv_init) as (_ & _ & Hconn & _).
  fold st in Hconn. subst io. unfold device_ioctl. rewrite Z.eqb_refl.
  destruct Hconn as [(Hc & Hdev) | (Hc & Hdev)].
  - destruct (wii_hid_dev st) as [dev |]; [| congruence]. cbn [fst snd].
    rewrite Hc.
    assert (Hlen : length (hw_requests (push_hw_request
                     (mkRequest dev (nth 0 status_request x00) status_request
                        (Z.of_nat (length status_request))
                        HID_OUTPUT_REPORT HID_REQ_SET_REPORT) st))
                   = S (length (hw_requests st))).
    { cbn [push_hw_request hw_requests]. rewrite length_app. cbn [length]. lia. }
    split; [| split; [| split; [| split]]].
    + split; [| lia]. intros (_ & E). rewrite E in Hlen. lia.
    + intros Hret. split; [congruence | lia].
    + split; [lia | congruence].
    + lia.
    + intros _. split; [reflexivity | exact Hlen].
  - rewrite Hdev, Hc. cbn [fst snd].
    split; [| split; [| split; [| split]]]; try tauto; try congruence.
Qed.

(** C9 (amended).  After every sequence of operations the cached battery
    level is the unknown mark -1 or the value of the byte of the last status
    report, between 0 and 255. *)
Theorem battery_unknown_or_byte (ops : list op) :
  let st := run ops init in
  wii_last_battery st = -1 \/ 0 <= wii_last_battery st <= 255.
Proof.
  intros st. destruct (run_inv ops init driver_inv_init) as (_ & _ & _ & Hb).
  exact Hb.
Qed.

(** * Further properties *)

(** ** Reads into any user buffer *)

(** The read loop for an arbitrary user buffer: what it delivers is the
    front of the unread bytes, what it leaves is the rest, and it stops
    either at the count, at the end of the data, or at the first offset
    that cannot be written. *)
Lemma device_read_loop_split (writable : nat -> bool) (remaining : nat) :
  forall (bytes_copied : nat) (ubuf : list ascii) (st : driver),
    buf_ok st ->
    match device_read_loop writable remaining bytes_copied ubuf st with
    | inl (st', n, ub) =>
        exists d : list ascii,
          ub = ubuf ++ d /\ d ++ contents st' = contents st /\
          n = (bytes_copied + length d)%nat /\
          length d = Nat.min remaining (length (contents st)) /\
          (forall k : nat,
              (bytes_copied <= k < bytes_copied + length d)%nat ->
              writable k = true)
    | inr (st', ub) =>
        exists d : list ascii,
          ub = ubuf ++ d /\ d ++ contents st' = contents st /\
          (length d < remaining)%nat /\
          (length d < length (contents st))%nat /\
          writable (bytes_copied + length d)%nat = false /\
          (forall k : nat,
              (bytes_copied <= k < bytes_copied + length d)%nat ->
              writable k = true)
    end.
Proof.
  induction remaining as [| n IH]; intros bc ubuf st Hok;
    cbn [device_read_loop].
  - exists []. rewrite app_nil_r. cbn [length app].
    repeat split; (lia || (intros; exfalso; lia)).
  - destruct (Z.eqb_spec (tail st) (head st)) as [Eempty | Hne].
    + exists []. rewrite app_nil_r, (contents_empty st (eq_sym Eempty)).
      cbn [length app]. repeat split; (lia || (intros; exfalso; lia)).
    + pose proof (pop_cell_contents st Hok Hne) as Hc.
      destruct (writable bc) eqn:Ew; cbn [negb].
      * fold (pop_cell st).
        specialize (IH (S bc) (ubuf ++ [circ_buffer st !!! Z.to_nat (tail st)])
                      (pop_cell st) (pop_cell_ok st Hok)).
        destruct (device_read_loop writable n (S bc) _ (pop_cell st))
          as [[[st' m] ub] | [st' ub]].
        -- destruct IH as (d & E1 & E2 & E3 & E4 & E5).
           exists (circ_buffer st !!! Z.to_nat (tail st) :: d).
           rewrite Hc. cbn [length app].
           split; [rewrite E1, <- app_assoc; reflexivity |].
           split; [rewrite E2; reflexivity |]. split; [lia |].
           split; [lia |].
           intros k Hk. destruct (Nat.eq_dec k bc) as [-> | Hkb];
             [exact Ew | apply E5; lia].
        -- destruct IH as (d & E1 & E2 & E3 & E4 & E5 & E6).
           exists (circ_buffer st !!! Z.to_nat (tail st) :: d).
           rewrite Hc. cbn [length app].
           split; [rewrite E1, <- app_assoc; reflexivity |].
           split; [rewrite E2; reflexivity |]. split; [lia |].
           split; [lia |].
           split; [rewrite <- E5; f_equal; lia |].
           intros k Hk. destruct (Nat.eq_dec k bc) as [-> | Hkb];
             [exact Ew | apply E6; lia].
      * exists []. rewrite app_nil_r, Hc. cbn [length app].
        rewrite Nat.add_0_r.
        split; [reflexivity |]. split; [reflexivity |]. split; [lia |].
        split; [lia |]. split; [exact Ew |]. intros k Hk. exfalso. lia.
Qed.

(** X1.  Whatever the user buffer and the count, a read delivers a front
    piece of the unread bytes and leaves exactly the rest: no byte is lost,
    duplicated or reordered, also when the read faults.  It delivers at
    most [count] bytes, returns either their number or [-EFAULT], and
    touches neither [head] nor anything outside the ring buffer. *)
Theorem read_conserves_bytes (writable : nat -> bool) (count : nat)
    (st : driver) :
  buf_ok st ->
  let r := device_read writable count st in
  r.2 ++ contents r.1.1 = contents st /\
  (length r.2 <= count)%nat /\
  (r.1.2 = Z.of_nat (length r.2) \/ r.1.2 = - EFAULT) /\
  buf_ok r.1.1 /\
  head r.1.1 = head st /\
  circ_mutex r.1.1 = false /\
  same_device r.1.1 st.
Proof.
  intros Hok r.
  destruct (device_read_frame writable count st Hok) as (F1 & F2 & F3 & F4).
  fold r in F1, F2, F3, F4.
  pose proof (device_read_loop_split writable count 0 [] (mutex_lock st) Hok) as H.
  subst r. unfold device_read in *.
  destruct (device_read_loop writable count 0 [] (mutex_lock st))
    as [[[st' m] ub] | [st' ub]]; cbn [fst snd] in *.
  - destruct H as (d & E1 & E2 & E3 & E4 & _). cbn [app] in E1. subst ub m.
    split; [exact E2 |]. split; [lia |]. split; [left; f_equal; lia |].
    repeat split; try apply F1; try apply F4; assumption.
  - destruct H as (d & E1 & E2 & E3 & _). cbn [app] in E1. subst ub.
    split; [exact E2 |]. split; [lia |]. split; [right; reflexivity |].
    repeat split; try apply F1; try apply F4; assumption.
Qed.

(** X2.  A read fails with [-EFAULT] exactly when one of the offsets it
    has to fill -- those below both the count and the number of unread
    bytes -- cannot be written.  So a read of an empty buffer, or with
    count 0, succeeds with 0 whatever the user buffer is; and without such
    an offset the read returns the smaller of the count and the number of
    unread bytes. *)
Theorem read_fault_iff (writable : nat -> bool) (count : nat) (st : driver) :
  0 < EFAULT ->
  buf_ok st ->
  let r := device_read writable count st in
  let n := Nat.min count (length (contents st)) in
  (r.1.2 = - EFAULT <->
   exists k : nat, (k < n)%nat /\ writable k = false) /\
  (r.1.2 <> - EFAULT -> r.1.2 = Z.of_nat n /\ r.2 = take count (contents st)).
Proof.
  intros Hpos Hok r n.
  pose proof (device_read_loop_split writable count 0 [] (mutex_lock st) Hok) as H.
  subst r. unfold device_read.
  destruct (device_read_loop writable count 0 [] (mutex_lock st))
    as [[[st' m] ub] | [st' ub]]; cbn [fst snd] in *.
  - destruct H as (d & E1 & E2 & E3 & E4 & E5). cbn [app] in E1. subst ub m.
    change (contents (mutex_lock st)) with (contents st) in *.
    split; [split |].
    + lia.
    + intros (k & Hk & Hbad). rewrite E5 in Hbad by (subst n; lia). discriminate.
    + intros _. split; [f_equal; subst n; lia |].
      rewrite <- E2 in E4 |- *. rewrite length_app in E4.
      destruct (Nat.le_gt_cases count (length d)) as [Hle | Hgt].
      * rewrite take_app_le, take_ge by lia. reflexivity.
      * assert (Hnil : contents st' = [])
          by (apply length_zero_iff_nil; lia).
        rewrite Hnil, app_nil_r, take_ge by lia. reflexivity.
  - destruct H as (d & E1 & E2 & E3 & E4 & E5 & E6).
    change (contents (mutex_lock st)) with (contents st) in *.
    split; [split |].
    + intros _. exists (length d). split; [subst n; lia | exact E5].
    + reflexivity.
    + congruence.
Qed.

(** ** Reads and the connection *)

Lemma contents_same_ring (a b : driver) : same_ring a b -> contents a = contents b.
Proof.
  intros (E1 & E2 & E3). unfold contents, occupancy. now rewrite E1, E2, E3.
Qed.

Lemma device_read_loop_same_ring (writable : nat -> bool) (remaining : nat) :
  forall (bytes_copied : nat) (ubuf : list ascii) (a b : driver),
    same_ring a b ->
    match device_read_loop writable remaining bytes_copied ubuf a,
          device_read_loop writable remaining bytes_copied ubuf b with
    | inl (a', n, ua), inl (b', m, ub) => same_ring a' b' /\ n = m /\ ua = ub
    | inr (a', ua), inr (b', ub) => same_ring a' b' /\ ua = ub
    | _, _ => False
    end.
Proof.
  induction remaining as [| n IH]; intros bc ubuf a b Hr;
    cbn [device_read_loop].
  - split; [exact Hr | split; reflexivity].
  - pose proof Hr as (E1 & E2 & E3). rewrite E1, E2, E3.
    destruct (tail b =? head b); [split; [exact Hr | split; reflexivity] |].
    destruct (negb (writable bc)); [split; [exact Hr | reflexivity] |].
    apply IH. repeat split; cbn; congruence.
Qed.

Lemma device_read_same_ring (writable : nat -> bool) (count : nat)
    (a b : driver) :
  same_ring a b ->
  (device_read writable count a).1.2 = (device_read writable count b).1.2 /\
  (device_read writable count a).2 = (device_read writable count b).2 /\
  same_ring (device_read writable count a).1.1 (device_read writable count b).1.1.
Proof.
  intros Hr. unfold device_read.
  pose proof (device_read_loop_same_ring writable count 0 []
                (mutex_lock a) (mutex_lock b) Hr) as H.
  destruct (device_read_loop writable count 0 [] (mutex_lock a))
    as [[[a' n] ua] | [a' ua]],
     (device_read_loop writable count 0 [] (mutex_lock b))
    as [[[b' m] ub] | [b' ub]]; try contradiction; cbn [fst snd].
  - destruct H as (H1 & -> & ->). repeat split; apply H1.
  - destruct H as (H1 & ->). repeat split; apply H1.
Qed.

(** X3.  Removing a device, probing one, or an ioctl leaves the unread
    bytes where they are: whatever a read would have returned, delivered
    and left behind before, it returns, delivers and leaves behind after. *)
Theorem reads_ignore_connection (st : driver) (writable : nat -> bool)
    (count : nat) (hdev : hid_device) (parse_ret start_ret hw_ret cmd : Z) :
  let rd := fun s : driver =>
    let r := device_read writable count s in (r.1.2, r.2, contents r.1.1) in
  contents (wii_remove hdev st) = contents st /\
  rd (wii_remove hdev st) = rd st /\
  rd (wii_probe hdev parse_ret start_ret st).1 = rd st /\
  rd (device_ioctl hw_ret cmd st).1 = rd st.
Proof.
  intros rd.
  assert (Hrd : forall a b : driver, same_ring a b -> rd a = rd b).
  { intros a b Hr. subst rd. cbv beta zeta.
    destruct (device_read_same_ring writable count a b Hr) as (-> & -> & H3).
    now rewrite (contents_same_ring _ _ H3). }
  split; [apply contents_same_ring; now repeat split |].
  split; [apply Hrd; now repeat split |].
  split; apply Hrd.
  - unfold wii_probe. destruct (negb (parse_ret =? 0)); [now repeat split |].
    destruct (negb (start_ret =? 0)); now repeat split.
  - unfold device_ioctl. destruct (cmd =? _); [| now repeat split].
    destruct (wii_hid_dev st); now repeat split.
Qed.

(** ** One report *)

Lemma u8_is_32 (b : byte) : u8 b = 0x20 -> b = x20.
Proof. destruct b; vm_compute; congruence. Qed.

Lemma battery_output_text (level : byte) :
  battery_output level
  = list_ascii_of_string ("Battery: " ++ dec level) ++ [newline].
Proof. destruct level; vm_compute; reflexivity. Qed.

(** X4.  A report of fewer than three bytes that is not a status report
    with its level byte is dropped without a trace: the state is exactly
    what it was.  This covers the empty report, any single byte (also the
    lone status identifier 0x20) and any two bytes not starting with
    0x20. *)
Theorem short_report_ignored (data : list byte) (st : driver) :
  (length data < 3)%nat ->
  (forall level : byte, data <> [x20; level]) ->
  wii_raw_event data st = (st, 0).
Proof.
  intros Hlen Hns. unfold wii_raw_event, perform_input_mapping.
  destruct data as [| a [| b [| c rest]]]; cbn [length] in *; try lia.
  - reflexivity.
  - cbn [nth]. change (Z.of_nat 1) with 1.
    destruct (u8 a =? 32); reflexivity.
  - cbn [nth]. change (Z.of_nat 2) with 2.
    destruct (Z.eqb_spec (u8 a) 32) as [E | _]; [| reflexivity].
    apply u8_is_32 in E. subst a. now destruct (Hns b).
Qed.

(** The effect of one report on the ring buffer. *)
Lemma wii_raw_event_line (data : list byte) (st : driver) :
  buf_ok st ->
  let st' := (wii_raw_event data st).1 in
  buf_ok st' /\
  contents st' = contents st ++ take (free st) (event_line data) /\
  free st' = (free st - length (event_line data))%nat /\
  tail st' = tail st /\
  wii_hid_dev st' = wii_hid_dev st /\
  wii_connected st' = wii_connected st /\
  hw_requests st' = hw_requests st.
Proof.
  intros Hok st'.
  assert (Hnone : event_line data = [] -> st' = st ->
                  buf_ok st' /\
                  contents st' = contents st ++ take (free st) (event_line data) /\
                  free st' = (free st - length (event_line data))%nat /\
                  tail st' = tail st /\ wii_hid_dev st' = wii_hid_dev st /\
                  wii_connected st' = wii_connected st /\
                  hw_requests st' = hw_requests st).
  { intros -> ->. rewrite take_nil, app_nil_r. cbn [length].
    repeat split; try apply Hok. lia. }
  destruct data as [| a [| b rest]].
  - apply Hnone; reflexivity.
  - apply Hnone; [reflexivity |]. subst st'.
    unfold wii_raw_event, perform_input_mapping.
    cbn [length nth]. change (Z.of_nat 1) with 1.
    destruct (u8 a =? 32); reflexivity.
  - assert (E1 : (0 <? Z.of_nat (length (a :: b :: rest))) = true)
      by (apply Z.ltb_lt; cbn [length]; lia).
    assert (E2 : (2 <=? Z.of_nat (length (a :: b :: rest))) = true)
      by (apply Z.leb_le; cbn [length]; lia).
    destruct (u8 a =? 32) eqn:Ea.
    + clear Hnone. subst st'. unfold wii_raw_event.
      rewrite E1, E2. cbn [nth]. rewrite Ea. cbn [andb fst event_line].
      rewrite Ea.
      destruct (circ_buffer_write_spec (battery_output b)
                  (set_wii_last_battery (u8 b) st) Hok)
        as (H1 & _ & H3 & H4 & H5 & _ & (S1 & S2 & _ & S4) & _).
      repeat split; try apply H1; assumption.
    + destruct rest as [| c rest].
      * apply Hnone; [cbn [event_line]; now rewrite Ea |]. subst st'.
        unfold wii_raw_event, perform_input_mapping.
        rewrite E1. cbn [nth]. rewrite Ea. reflexivity.
      * clear Hnone. subst st'. unfold wii_raw_event, perform_input_mapping.
        rewrite E1. cbn [nth]. rewrite Ea. cbn [andb fst event_line].
        rewrite Ea.
        replace (Z.of_nat (length (a :: b :: c :: rest)) <? 3) with false
          by (symmetry; apply Z.ltb_ge; cbn [length]; lia).
        destruct (circ_buffer_write_spec (mapped_event a b c) st Hok)
          as (H1 & _ & H3 & H4 & H5 & _ & (S1 & S2 & _ & S4) & _).
        repeat split; try apply H1; assumption.
Qed.

(** X5.  A status report -- first byte 0x20, then the level, then any
    further bytes, which are ignored -- caches the level whether or not
    its line fits: the line "Battery: <level>" with a newline is appended
    as far as there is room, and with a full buffer nothing is appended,
    yet the cached level is the new one.  Connection and transport log
    stay as they were. *)
Theorem status_report_caches_level (level : byte) (rest : list byte)
    (st : driver) :
  buf_ok st ->
  let st' := (wii_raw_event (x20 :: level :: rest) st).1 in
  wii_last_battery st' = u8 level /\
  contents st'
  = contents st
    ++ take (free st)
         (list_ascii_of_string ("Battery: " ++ dec level) ++ [newline]) /\
  (free st = 0%nat -> contents st' = contents st) /\
  wii_hid_dev st' = wii_hid_dev st /\
  wii_connected st' = wii_connected st /\
  hw_requests st' = hw_requests st.
Proof.
  intros Hok st'.
  destruct (wii_raw_event_line (x20 :: level :: rest) st Hok)
    as (_ & H2 & _ & _ & H5 & H6 & H7).
  fold st' in H2, H5, H6, H7.
  change (event_line (x20 :: level :: rest)) with (battery_output level) in H2.
  rewrite battery_output_text in H2.
  split.
  - subst st'. unfold wii_raw_event. cbn [length nth].
    replace (0 <? Z.of_nat (S (S (length rest)))) with true
      by (symmetry; apply Z.ltb_lt; lia).
    replace (2 <=? Z.of_nat (S (S (length rest)))) with true
      by (symmetry; apply Z.leb_le; lia).
    change (u8 x20 =? 32) with true. cbn [andb fst].
    destruct (circ_buffer_write_spec (battery_output level)
                (set_wii_last_battery (u8 level) st) Hok)
      as (_ & _ & _ & _ & _ & _ & (_ & _ & S3 & _) & _).
    exact S3.
  - split; [exact H2 |]. split; [| now repeat split].
    intros Hz. rewrite H2, Hz, take_0, app_nil_r. reflexivity.
Qed.

(** ** Reports, one after the other *)

Lemma ingest_lines (reports : list (list byte)) :
  forall st : driver,
    buf_ok st ->
    (length (concat (map event_line reports)) <= free st)%nat ->
    buf_ok (ingest reports st) /\
    contents (ingest reports st)
    = contents st ++ concat (map event_line reports).
Proof.
  unfold ingest.
  induction reports as [| data reports IH]; intros st Hok Hfit;
    cbn [fold_left map concat] in *.
  - rewrite app_nil_r. now split.
  - rewrite length_app in Hfit.
    destruct (wii_raw_event_line data st Hok) as (H1 & H2 & H3 & _).
    destruct (IH _ H1) as (I1 & I2); [lia |].
    split; [exact I1 |].
    rewrite I2, H2, take_ge by lia. now rewrite app_assoc.
Qed.

(** X6.  Reports whose lines all fit are appended whole and in arrival
    order behind the unread bytes: status reports as battery lines, button
    reports as button lines, too short ones as nothing.  A read into a good
    user buffer then delivers the front of that sequence. *)
Theorem reports_accumulate (reports : list (list byte)) (st : driver)
    (writable : nat -> bool) (count : nat) :
  buf_ok st ->
  (length (concat (map event_line reports)) <= free st)%nat ->
  (forall k : nat, writable k = true) ->
  let st' := ingest reports st in
  contents st' = contents st ++ concat (map event_line reports) /\
  (device_read writable count st').2
  = take count (contents st ++ concat (map event_line reports)) /\
  (device_read writable count st').1.2
  = Z.of_nat (Nat.min count
                (length (contents st)
                 + length (concat (map event_line reports)))).
Proof.
  intros Hok Hfit Hw st'.
  destruct (ingest_lines reports st Hok Hfit) as (H1 & H2). fold st' in H1, H2.
  destruct (device_read_ok writable count st' H1) as (st2 & E & _).
  { intros k _ _. apply Hw. }
  rewrite E, H2, length_app. cbn [fst snd]. now repeat split.
Qed.

(** ** The shape of a button line *)

Lemma newline_not_in_prefix (report_id : byte) :
  ~ In newline (list_ascii_of_string (report_prefix report_id)).
Proof. destruct report_id; vm_compute; intuition discriminate. Qed.

Lemma newline_not_in_emitted (byte mask : Z) (tok : string) :
  ~ In newline (list_ascii_of_string tok) ->
  ~ In newline (emitted byte mask tok).
Proof. unfold emitted. destruct (negb _); [auto | intros _ []]. Qed.

(** A button line is a text without newline, of 14 to 77 bytes, and a
    newline. *)
Lemma button_line_body (report_id btn_byte1 btn_byte2 : byte) :
  exists body : list ascii,
    mapped_event report_id btn_byte1 btn_byte2 = body ++ [newline] /\
    ~ In newline body /\
    (14 <= length body <= 77)%nat.
Proof.
  pose proof (report_prefix_length report_id) as Hp.
  pose proof (mapped_event_emitted report_id btn_byte1 btn_byte2) as E.
  match type of E with
  | _ = ?P ++ ?e1 ++ ?e2 ++ ?e3 ++ ?e4 ++ ?e5 ++ ?e6 ++ ?e7 ++ ?e8 ++ ?e9
          ++ ?e10 ++ ?e11 ++ [newline] =>
      set (body := P ++ e1 ++ e2 ++ e3 ++ e4 ++ e5 ++ e6 ++ e7 ++ e8 ++ e9
                     ++ e10 ++ e11)
  end.
  assert (Eb : mapped_event report_id btn_byte1 btn_byte2 = body ++ [newline]).
  { rewrite E. subst body. rewrite <- !app_assoc. reflexivity. }
  assert (Hlen : (14 <= length body <= 77)%nat).
  { subst body. split; [rewrite length_app; lia | bound_emitted]. }
  exists body. split; [exact Eb |]. split; [| exact Hlen].
  subst body. rewrite !in_app_iff.
  pose proof (newline_not_in_prefix report_id) as Hn.
  intros [H | H]; [exact (Hn H) |].
  repeat (destruct H as [H | H];
          [revert H; apply newline_not_in_emitted; vm_compute;
           intuition discriminate |]).
  revert H; apply newline_not_in_emitted; vm_compute; intuition discriminate.
Qed.

(** X7.  Every line the driver writes is a text without newline followed
    by one newline: a button line has 15 to 78 bytes, a battery line 11 to
    13.  The 256-byte buffer of [perform_input_mapping] and the 64-byte
    buffer of [wii_raw_event] are never filled, no line is ever cut by
    them, and a reader can split the stream at newlines. *)
Theorem event_line_shapes :
  (forall report_id btn_byte1 btn_byte2 : byte,
      exists body : list ascii,
        mapped_event report_id btn_byte1 btn_byte2 = body ++ [newline] /\
        ~ In newline body /\
        (14 <= length body <= 77)%nat) /\
  (forall level : byte,
      exists body : list ascii,
        battery_output level = body ++ [newline] /\
        ~ In newline body /\
        (10 <= length body <= 12)%nat).
Proof.
  split; [exact button_line_body |].
  intros level. exists (list_ascii_of_string ("Battery: " ++ dec level)).
  split; [apply battery_output_text |].
  destruct level; vm_compute; split; try lia; intuition discriminate.
Qed.

(** ** A button line determines its report *)

Lemma read_id_prefix (report_id : byte) (rest : list ascii) :
  read_id (list_ascii_of_string (report_prefix report_id) ++ rest)
  = list_ascii_of_string (dec report_id).
Proof. destruct report_id; reflexivity. Qed.

Lemma byte_of_digits_dec (b : byte) :
  byte_of_digits (list_ascii_of_string (dec b)) = Some b.
Proof. destruct b; reflexivity. Qed.

Lemma read_buttons_pressed (btn_byte1 btn_byte2 : byte) :
  read_buttons (map snd button_table)
    (list_ascii_of_string
       (String.concat EmptyString
          (map (terminated EmptyString) (pressed_tokens btn_byte1 btn_byte2))))
  = pressed_tokens btn_byte1 btn_byte2.
Proof.
  unfold pressed_tokens, button_table. cbn [List.filter pressed map snd].
  destruct (bit_set btn_byte1 0), (bit_set btn_byte1 1), (bit_set btn_byte1 2),
    (bit_set btn_byte1 3), (bit_set btn_byte1 4), (bit_set btn_byte2 4),
    (bit_set btn_byte2 7), (bit_set btn_byte2 0), (bit_set btn_byte2 1),
    (bit_set btn_byte2 2), (bit_set btn_byte2 3); reflexivity.
Qed.

(** X8.  Two button reports are mapped to the same line exactly when they
    have the same report identifier and the same buttons pressed: the line
    tells a reader the identifier and each of the eleven buttons, and
    nothing else of the report reaches it. *)
Theorem button_line_injective
    (report_id btn_byte1 btn_byte2 report_id' btn_byte1' btn_byte2' : byte) :
  mapped_event report_id btn_byte1 btn_byte2
  = mapped_event report_id' btn_byte1' btn_byte2'
  <-> report_id = report_id' /\
      pressed_tokens btn_byte1 btn_byte2 = pressed_tokens btn_byte1' btn_byte2'.
Proof.
  rewrite !mapped_event_terminated. unfold terminated_line.
  rewrite !list_ascii_of_string_app, <- !app_assoc.
  split.
  - intros E.
    assert (Eid : report_id = report_id').
    { apply (f_equal read_id) in E. rewrite !read_id_prefix in E.
      apply (f_equal byte_of_digits) in E. rewrite !byte_of_digits_dec in E.
      congruence. }
    subst report_id'. split; [reflexivity |].
    apply app_inv_head, app_inv_tail in E.
    apply (f_equal (read_buttons (map snd button_table))) in E.
    now rewrite !read_buttons_pressed in E.
  - intros (-> & ->). reflexivity.
Qed.

(** ** What a run leaves behind *)

Lemma wii_raw_event_battery (data : list byte) (st : driver) :
  buf_ok st ->
  wii_last_battery (wii_raw_event data st).1
  = level_after (wii_last_battery st) (OpRawEvent data).
Proof.
  intros Hok. cbn [level_after].
  destruct data as [| a [| b rest]].
  - reflexivity.
  - unfold wii_raw_event, perform_input_mapping. cbn [length nth].
    change (Z.of_nat 1) with 1. destruct (u8 a =? 32); reflexivity.
  - unfold wii_raw_event.
    replace (0 <? Z.of_nat (length (a :: b :: rest))) with true
      by (symmetry; apply Z.ltb_lt; cbn [length]; lia).
    replace (2 <=? Z.of_nat (length (a :: b :: rest))) with true
      by (symmetry; apply Z.leb_le; cbn [length]; lia).
    cbn [nth andb]. destruct (u8 a =? 32); cbn [fst].
    + destruct (circ_buffer_write_spec (battery_output b)
                  (set_wii_last_battery (u8 b) st) Hok)
        as (_ & _ & _ & _ & _ & _ & (_ & _ & S3 & _) & _).
      exact S3.
    + unfold perform_input_mapping. destruct (_ <? 3); [reflexivity |].
      destruct (circ_buffer_write_spec
                  (mapped_event (nth 0 (a :: b :: rest) x00)
                     (nth 1 (a :: b :: rest) x00) (nth 2 (a :: b :: rest) x00))
                  st Hok)
        as (_ & _ & _ & _ & _ & _ & (_ & _ & S3 & _) & _).
      exact S3.
Qed.

Lemma step_summary (st : driver) (o : op) :
  driver_inv st ->
  wii_last_battery (step st o) = level_after (wii_last_battery st) o /\
  wii_hid_dev (step st o) = device_after (wii_hid_dev st) o /\
  (exists new : list raw_request,
      hw_requests (step st o) = hw_requests st ++ new /\
      Forall is_status_request new /\
      (length new <= if is_status_ioctl o then 1 else 0)%nat).
Proof.
  intros (Hok & _).
  assert (Hsame : forall st' : driver, same_device st' st ->
            wii_last_battery st' = wii_last_battery st /\
            wii_hid_dev st' = wii_hid_dev st /\
            (exists new : list raw_request,
                hw_requests st' = hw_requests st ++ new /\
                Forall is_status_request new /\ (length new <= 0)%nat)).
  { intros st' (E1 & _ & E3 & E4). split; [exact E3 |]. split; [exact E1 |].
    exists []. rewrite app_nil_r. split; [exact E4 |]. split; [constructor |].
    cbn. lia. }
  destruct o as [hdev pr sr | hdev | data | data | w n | hw cmd];
    cbn [step level_after device_after is_status_ioctl].
  - unfold wii_probe.
    destruct (pr =? 0); cbn [negb andb]; [| now apply Hsame, same_device_refl].
    destruct (sr =? 0); cbn [negb andb]; [| now apply Hsame, same_device_refl].
    cbn. split; [reflexivity |]. split; [reflexivity |].
    exists []. rewrite app_nil_r. split; [reflexivity |]. split; [constructor |].
    cbn. lia.
  - cbn. split; [reflexivity |]. split; [reflexivity |].
    exists []. rewrite app_nil_r. split; [reflexivity |]. split; [constructor |].
    cbn. lia.
  - split; [now apply wii_raw_event_battery |].
    destruct (wii_raw_event_line data st Hok) as (_ & _ & _ & _ & H5 & _ & H7).
    split; [exact H5 |]. exists []. rewrite app_nil_r.
    split; [exact H7 |]. split; [constructor |]. cbn. lia.
  - apply Hsame.
    now destruct (circ_buffer_write_spec data st Hok) as (_ & _ & _ & _ & _ & _ & H7 & _).
  - apply Hsame. now destruct (device_read_frame w n st Hok) as (_ & _ & _ & H4).
  - unfold device_ioctl.
    destruct (cmd =? WIIMOTE_IOCTL_REQUEST_STATUS);
      [| apply Hsame, same_device_refl].
    destruct (wii_hid_dev st) as [dev |] eqn:Edev; cbn [fst].
    + cbn [push_hw_request wii_last_battery wii_hid_dev hw_requests].
      split; [reflexivity |]. split; [exact Edev |].
      eexists. split; [reflexivity |]. split; [| cbn; lia].
      constructor; [| constructor]. now repeat split.
    + destruct (Hsame st (same_device_refl st)) as (H1 & H2 & new & H3 & H4 & H5).
      split; [exact H1 |]. split; [congruence |].
      exists new. split; [exact H3 |]. split; [exact H4 | lia].
Qed.

Lemma run_battery_level (ops : list op) :
  forall st : driver,
    driver_inv st ->
    wii_last_battery (run ops st)
    = fold_left level_after ops (wii_last_battery st).
Proof.
  unfold run. induction ops as [| o ops IH]; intros st Hinv; cbn [fold_left].
  - reflexivity.
  - rewrite (IH _ (step_inv st o Hinv)).
    now destruct (step_summary st o Hinv) as (-> & _).
Qed.

Lemma run_device (ops : list op) :
  forall st : driver,
    driver_inv st ->
    wii_hid_dev (run ops st) = fold_left device_after ops (wii_hid_dev st).
Proof.
  unfold run. induction ops as [| o ops IH]; intros st Hinv; cbn [fold_left].
  - reflexivity.
  - rewrite (IH _ (step_inv st o Hinv)).
    now destruct (step_summary st o Hinv) as (_ & -> & _).
Qed.

Lemma run_connected (ops : list op) :
  wii_connected (run ops init)
  = match fold_left device_after ops None with Some _ => 1 | None => 0 end.
Proof.
  pose proof (run_device ops init driver_inv_init) as H.
  cbn [init wii_hid_dev] in H. rewrite <- H.
  destruct (run_inv ops init driver_inv_init) as (_ & _ & Hc & _).
  destruct Hc as [(Hc & Hd) | (Hc & Hd)].
  - destruct (wii_hid_dev (run ops init)); [exact Hc | congruence].
  - rewrite Hd. exact Hc.
Qed.

(** X9.  After any sequence of operations the cached battery level is the
    level byte of the last status report of at least two bytes, or -1 when
    there has been none: reads, writes, button reports, ioctls, probes and
    removals leave it alone, so what is known of the battery survives a
    disconnect and a reconnect. *)
Theorem battery_is_last_status (ops : list op) :
  wii_last_battery (run ops init) = fold_left level_after ops (-1).
Proof.
  pose proof (run_battery_level ops init driver_inv_init) as H.
  cbn [init wii_last_battery] in H. exact H.
Qed.

(** X10.  After any sequence of operations the device pointer is the
    device of the last successful probe if no removal came after it, and
    NULL otherwise; the connected flag is 1 or 0 accordingly.  A probe
    whose [hid_parse] or [hid_hw_start] fails changes nothing, and the
    removal of any device, also of another one than the one attached,
    disconnects. *)
Theorem device_is_last_probe (ops : list op) :
  wii_hid_dev (run ops init) = fold_left device_after ops None /\
  wii_connected (run ops init)
  = match fold_left device_after ops None with Some _ => 1 | None => 0 end.
Proof.
  split; [| apply run_connected].
  pose proof (run_device ops init driver_inv_init) as H.
  cbn [init wii_hid_dev] in H. exact H.
Qed.

(** X11.  The module originates no traffic but status requests: after any
    sequence of operations every request handed to the transport has
    report number 0x15, the two bytes [0x15, 0x00], and is an output report
    sent with SET_REPORT; and there are at most as many of them as there
    were status ioctls, so none is ever repeated. *)
Theorem only_status_requests (ops : list op) :
  Forall is_status_request (hw_requests (run ops init)) /\
  (length (hw_requests (run ops init))
   <= length (List.filter is_status_ioctl ops))%nat.
Proof.
  assert (H : forall st : driver,
             driver_inv st ->
             exists new : list raw_request,
               hw_requests (run ops st) = hw_requests st ++ new /\
               Forall is_status_request new /\
               (length new <= length (List.filter is_status_ioctl ops))%nat).
  { unfold run. induction ops as [| o ops IH]; intros st Hinv;
      cbn [fold_left List.filter].
    - exists []. rewrite app_nil_r. split; [reflexivity |].
      split; [constructor | cbn; lia].
    - destruct (IH _ (step_inv st o Hinv)) as (new2 & E2 & F2 & L2).
      destruct (step_summary st o Hinv) as (_ & _ & new1 & E1 & F1 & L1).
      exists (new1 ++ new2). rewrite E2, E1, <- app_assoc.
      split; [reflexivity |]. split; [now apply Forall_app |].
      rewrite length_app. destruct (is_status_ioctl o); cbn [length]; lia. }
  destruct (H init driver_inv_init) as (new & E & F & L).
  rewrite E. cbn [init hw_requests app]. now split.
Qed.

(** ** The /proc entry *)

Lemma dec_int_u8 (b : byte) : dec_int (u8 b) = dec b.
Proof. destruct b; reflexivity. Qed.

(** X12.  After any sequence of operations, /proc/wii_remote shows three
    lines: the title; "Connected: Yes" when the last successful probe has
    not been followed by a removal and "Connected: No" otherwise; and
    "Last Battery:" with the level of the last status report in decimal, or
    -1 when none has arrived.  The battery line is not reset by a
    disconnect. *)
Theorem proc_shows_history (ops : list op) :
  wii_proc_show (run ops init)
  = (("Wii Remote Driver State:" ++ nl)
     ++ ("  Connected: "
         ++ match fold_left device_after ops None with
            | Some _ => "Yes"
            | None => "No"
            end ++ nl)
     ++ ("  Last Battery: " ++ dec_int (fold_left level_after ops (-1)) ++ nl))%string /\
  (fold_left level_after ops (-1) = -1 \/
   exists level : byte,
     fold_left level_after ops (-1) = u8 level /\
     dec_int (fold_left level_after ops (-1)) = dec level).
Proof.
  pose proof (run_connected ops) as Hc.
  pose proof (run_battery_level ops init driver_inv_init) as Hb.
  cbn [init wii_last_battery] in Hb.
  split.
  - unfold wii_proc_show. rewrite Hb, Hc.
    destruct (fold_left device_after ops None); reflexivity.
  - rewrite <- Hb. clear Hb Hc.
    assert (H : forall st : driver,
               driver_inv st ->
               (wii_last_battery st = -1 \/
                exists level : byte, wii_last_battery st = u8 level) ->
               wii_last_battery (run ops st) = -1 \/
               exists level : byte, wii_last_battery (run ops st) = u8 level).
    { unfold run. induction ops as [| o ops IH]; intros st Hinv Hst;
        cbn [fold_left]; [exact Hst |].
      apply (IH _ (step_inv st o Hinv)).
      destruct (step_summary st o Hinv) as (-> & _).
      destruct o as [| | [| a [| b rest]] | | |]; cbn [level_after]; try exact Hst.
      destruct (u8 a =? 32); [right; now exists b | exact Hst]. }
    destruct (H init driver_inv_init (or_introl eq_refl)) as [E | (level & E)].
    + now left.
    + right. exists level. split; [exact E |]. rewrite E. apply dec_int_u8.
Qed.

(** ** Loading and unloading *)

Lemma wii_init_all_ok (k : kernel_answers) :
  proc_create_ok k = true -> alloc_chrdev_region_ret k = 0 ->
  cdev_add_ret k = 0 -> class_create_err k = 0 ->
  hid_register_driver_ret k = 0 ->
  wii_init k nothing_registered
  = (mkRegistry true true true true true (device_create_ok k) true, 0).
Proof.
  destruct k as [pc ar cr ce dc hr]; cbn. intros -> -> -> -> ->.
  destruct dc; reflexivity.
Qed.

Lemma wii_init_zero (k : kernel_answers) :
  0 < ENOMEM ->
  answers_in_contract k ->
  (wii_init k nothing_registered).2 = 0 ->
  proc_create_ok k = true /\ alloc_chrdev_region_ret k = 0 /\
  cdev_add_ret k = 0 /\ class_create_err k = 0 /\
  hid_register_driver_ret k = 0.
Proof.
  intros Hpos (H1 & H2 & H3 & H4). unfold wii_init, IS_ERR.
  destruct k as [pc ar cr ce dc hr]; cbn in *.
  destruct pc; cbn; [| lia].
  destruct (Z.eqb_spec ar 0) as [-> | Ha]; cbn;
    [| replace (ar <? 0) with true by (symmetry; apply Z.ltb_lt; lia); cbn; lia].
  destruct (Z.eqb_spec cr 0) as [-> | Hc]; cbn;
    [| replace (cr <? 0) with true by (symmetry; apply Z.ltb_lt; lia); cbn; lia].
  destruct (Z.ltb_spec ce 0) as [Hce | Hce]; cbn; [lia |].
  destruct (Z.eqb_spec hr 0) as [-> | Hh]; cbn; [| lia].
  intros _. repeat split; lia.
Qed.

(** X13.  With the kernel answering within its contract, [wii_init]
    returns 0 exactly when creating the /proc entry, allocating the region,
    adding the cdev, creating the class and registering the HID driver all
    succeed; all five are then held.  The device node is not among the
    conditions: its creation is not checked, so the module can load
    without /dev/wii_remote. *)
Theorem wii_init_success (k : kernel_answers) :
  0 < ENOMEM ->
  answers_in_contract k ->
  let r := wii_init k nothing_registered in
  (r.2 = 0 <->
   proc_create_ok k = true /\ alloc_chrdev_region_ret k = 0 /\
   cdev_add_ret k = 0 /\ class_create_err k = 0 /\
   hid_register_driver_ret k = 0) /\
  (r.2 = 0 ->
   r.1 = mkRegistry true true true true true (device_create_ok k) true).
Proof.
  intros Hpos Hk r. subst r. split; [split |].
  - now apply wii_init_zero.
  - intros (A1 & A2 & A3 & A4 & A5).
    now rewrite (wii_init_all_ok k A1 A2 A3 A4 A5).
  - intros Hz.
    destruct (wii_init_zero k Hpos Hk Hz) as (A1 & A2 & A3 & A4 & A5).
    now rewrite (wii_init_all_ok k A1 A2 A3 A4 A5).
Qed.

(** X14.  With the kernel answering within its contract, a failing
    [wii_init] gives back the region, the cdev, the class, the device node
    and the HID driver, but not the /proc entry: whenever [proc_create]
    succeeded and a later step failed, /proc/wii_remote stays registered
    although the module did not load. *)
Theorem wii_init_failure_keeps_proc_entry (k : kernel_answers) :
  0 < ENOMEM ->
  answers_in_contract k ->
  let r := wii_init k nothing_registered in
  r.2 <> 0 ->
  r.2 < 0 /\
  region_registered r.1 = false /\ cdev_added r.1 = false /\
  class_created r.1 = false /\ device_created r.1 = false /\
  hid_registered r.1 = false /\
  proc_registered r.1 = proc_create_ok k.
Proof.
  intros Hpos (H1 & H2 & H3 & H4) r. subst r. unfold wii_init, IS_ERR.
  destruct k as [pc ar cr ce dc hr]; cbn in *.
  destruct pc; cbn; [| intros _; repeat split; lia].
  destruct (Z.eqb_spec ar 0) as [-> | Ha]; cbn;
    [| replace (ar <? 0) with true by (symmetry; apply Z.ltb_lt; lia); cbn;
       intros _; repeat split; lia].
  destruct (Z.eqb_spec cr 0) as [-> | Hc]; cbn;
    [| replace (cr <? 0) with true by (symmetry; apply Z.ltb_lt; lia); cbn;
       intros _; repeat split; lia].
  destruct (Z.ltb_spec ce 0) as [Hce | Hce]; cbn;
    [intros _; repeat split; lia |].
  destruct (Z.eqb_spec hr 0) as [-> | Hh]; cbn.
  - intros Habs. now destruct Habs.
  - intros _. destruct dc; cbn; repeat split; lia.
Qed.

(** X15.  Unloading after a successful load gives everything back: after
    [wii_exit] nothing is registered and [wii_proc_entry] is NULL again,
    whether or not the device node had been created. *)
Theorem wii_exit_after_init (k : kernel_answers) :
  0 < ENOMEM ->
  answers_in_contract k ->
  (wii_init k nothing_registered).2 = 0 ->
  wii_exit (wii_init k nothing_registered).1 = nothing_registered.
Proof.
  intros Hpos Hk Hz.
  destruct (wii_init_zero k Hpos Hk Hz) as (A1 & A2 & A3 & A4 & A5).
  rewrite (wii_init_all_ok k A1 A2 A3 A4 A5). reflexivity.
Qed.

(** ** The reader program *)

Lemma starts_with_app_sep (n : list ascii) :
  forall (h : list ascii) (c : ascii) (h2 : list ascii),
    ~ In c n -> starts_with n (h ++ c :: h2) = starts_with n h.
Proof.
  induction n as [| a n IH]; intros h c h2 Hc; [now destruct h |].
  destruct h as [| d h]; cbn [app starts_with].
  - destruct (Ascii.eqb_spec a c) as [-> | _]; [| reflexivity].
    exfalso. apply Hc. now left.
  - rewrite IH; [reflexivity |]. intros Hin. apply Hc. now right.
Qed.

(** A search does not see across a character that the needle lacks. *)
Lemma strstr_app_sep (h1 : list ascii) (c : ascii) (h2 n : list ascii) :
  ~ In c n -> strstr (h1 ++ c :: h2) n = strstr h1 n || strstr h2 n.
Proof.
  intros Hc. induction h1 as [| a h1 IH]; cbn [app strstr].
  - pose proof (starts_with_app_sep n [] c h2 Hc) as E. cbn [app] in E.
    now rewrite E.
  - pose proof (starts_with_app_sep n (a :: h1) c h2 Hc) as E. cbn [app] in E.
    now rewrite IH, E, orb_assoc.
Qed.

Lemma c_string_no_nul (l : list ascii) : ~ In zero l -> c_string l = l.
Proof.
  induction l as [| c l IH]; intros Hn; cbn [c_string]; [reflexivity |].
  destruct (Ascii.eqb_spec c zero) as [-> | _].
  - exfalso. apply Hn. now left.
  - rewrite IH; [reflexivity |]. intros Hin. apply Hn. now right.
Qed.

Lemma main_iteration_react (text : list ascii) (p : pointer) :
  ~ In zero text ->
  main_iteration (Z.of_nat (length text)) text p = react (seen_in_text text) p.
Proof.
  intros Hn. unfold main_iteration.
  replace (Z.of_nat (length text) <? 0) with false
    by (symmetry; apply Z.ltb_ge; lia).
  rewrite Nat2Z.id, firstn_all, (c_string_no_nul text Hn). reflexivity.
Qed.

Lemma nul_not_in_button_line (report_id btn_byte1 btn_byte2 : byte) :
  ~ In zero (mapped_event report_id btn_byte1 btn_byte2).
Proof.
  rewrite mapped_event_emitted, !in_app_iff.
  assert (Hp : ~ In zero (list_ascii_of_string (report_prefix report_id)))
    by (destruct report_id; vm_compute; intuition discriminate).
  assert (He : forall (byte mask : Z) (tok : string),
             ~ In zero (list_ascii_of_string tok) ->
             ~ In zero (emitted byte mask tok)).
  { intros byte mask tok Ht. unfold emitted.
    destruct (negb _); [exact Ht | intros []]. }
  intros [H | H]; [exact (Hp H) |].
  repeat (destruct H as [H | H];
          [revert H; apply He; vm_compute; intuition discriminate |]).
  revert H. vm_compute. intuition discriminate.
Qed.

Lemma nul_not_in_event_line (data : list byte) : ~ In zero (event_line data).
Proof.
  destruct data as [| id [| b1 rest]]; cbn [event_line]; try (intros []).
  destruct (u8 id =? 32).
  - destruct b1; vm_compute; intuition discriminate.
  - destruct rest; [intros [] | apply nul_not_in_button_line].
Qed.

Lemma report_prefix_split (report_id : byte) :
  list_ascii_of_string (report_prefix report_id)
  = list_ascii_of_string "Report: ID"
    ++ "="%char :: list_ascii_of_string (dec report_id) ++ ","%char :: [" "%char].
Proof.
  unfold report_prefix.
  change ("Report: ID=" ++ dec report_id ++ ", ")%string
    with ("Report: ID" ++ String "="%char (dec report_id ++ ", "))%string.
  rewrite list_ascii_of_string_app. cbn [list_ascii_of_string].
  now rewrite list_ascii_of_string_app.
Qed.

Lemma dec_has_no_letters (b : byte) :
  seen_in_text (list_ascii_of_string (dec b))
  = mkSeen false false false false false false
           (has_digit b "1") (has_digit b "2") false false.
Proof. destruct b; reflexivity. Qed.

Lemma seen_in_tokens (btn_byte1 btn_byte2 : byte) :
  seen_in_text
    (" "%char
     :: list_ascii_of_string
          (String.concat EmptyString
             (map (terminated EmptyString) (pressed_tokens btn_byte1 btn_byte2)))
     ++ [newline])
  = mkSeen (bit_set btn_byte1 2) (bit_set btn_byte1 3) (bit_set btn_byte1 0)
           (bit_set btn_byte1 1) (bit_set btn_byte2 3) (bit_set btn_byte2 2)
           (bit_set btn_byte2 1) (bit_set btn_byte2 0)
           (bit_set btn_byte1 4) (bit_set btn_byte2 4).
Proof.
  unfold pressed_tokens, button_table. cbn [List.filter pressed].
  destruct (bit_set btn_byte1 0), (bit_set btn_byte1 1), (bit_set btn_byte1 2),
    (bit_set btn_byte1 3), (bit_set btn_byte1 4), (bit_set btn_byte2 4),
    (bit_set btn_byte2 7), (bit_set btn_byte2 0), (bit_set btn_byte2 1),
    (bit_set btn_byte2 2), (bit_set btn_byte2 3); vm_compute; reflexivity.
Qed.

Lemma seen_in_text_sep (h1 : list ascii) (c : ascii) (h2 : list ascii) :
  c = "="%char \/ c = ","%char \/ c = newline ->
  seen_in_text (h1 ++ c :: h2) = seen_or (seen_in_text h1) (seen_in_text h2).
Proof.
  intros Hc. unfold seen_in_text, seen_or. cbn [s_down s_up s_left s_right s_a s_b s_1 s_2 s_plus s_minus].
  rewrite !(strstr_app_sep h1 c h2);
    [reflexivity | ..];
    destruct Hc as [-> | [-> | ->]]; vm_compute; intuition discriminate.
Qed.

(** What the reader's searches find in the line of a button report. *)
Lemma seen_in_button_line (report_id btn_byte1 btn_byte2 : byte) :
  seen_in_text (mapped_event report_id btn_byte1 btn_byte2)
  = seen_in_report report_id btn_byte1 btn_byte2.
Proof.
  rewrite mapped_event_terminated. unfold terminated_line.
  rewrite list_ascii_of_string_app, report_prefix_split.
  rewrite <- !app_assoc. cbn [app]. rewrite <- !app_assoc. cbn [app].
  rewrite (seen_in_text_sep (list_ascii_of_string "Report: ID") "="%char)
    by now left.
  rewrite (seen_in_text_sep (list_ascii_of_string (dec report_id)) ","%char)
    by (right; now left).
  rewrite dec_has_no_letters, seen_in_tokens.
  unfold seen_in_report, seen_or.
  cbn [s_down s_up s_left s_right s_a s_b s_1 s_2 s_plus s_minus].
  change (seen_in_text (list_ascii_of_string "Report: ID")) with seen_nothing.
  cbn [seen_nothing s_down s_up s_left s_right s_a s_b s_1 s_2 s_plus s_minus orb].
  f_equal; apply orb_comm.
Qed.

Lemma seen_in_battery_line (level : byte) :
  seen_in_text (battery_output level)
  = mkSeen false false false false false true
           (has_digit level "1") (has_digit level "2") false false.
Proof. destruct level; reflexivity. Qed.

Lemma seen_in_event_line (data : list byte) :
  seen_in_text (event_line data) = seen_in_event data.
Proof.
  destruct data as [| id [| b1 rest]]; cbn [event_line seen_in_event];
    try reflexivity.
  destruct (u8 id =? 32); [apply seen_in_battery_line |].
  destruct rest; [reflexivity | apply seen_in_button_line].
Qed.

Lemma seen_or_nothing_r (s : seen) : seen_or s seen_nothing = s.
Proof. destruct s. unfold seen_or. cbn. now rewrite !orb_false_r. Qed.

Lemma event_line_ends (data : list byte) :
  event_line data = [] \/
  exists body : list ascii, event_line data = body ++ [newline].
Proof.
  destruct data as [| id [| b1 rest]]; cbn [event_line]; try now left.
  destruct (u8 id =? 32).
  - right. rewrite battery_output_text. now eexists.
  - destruct rest as [| b2 rest]; [now left | right].
    rewrite mapped_event_terminated. unfold terminated_line. now eexists.
Qed.

(** Lines read together are searched as one text, and the newline between
    two lines keeps a match from spanning them. *)
Lemma seen_in_lines (reports : list (list byte)) :
  seen_in_text (concat (map event_line reports))
  = fold_right seen_or seen_nothing (map seen_in_event reports).
Proof.
  induction reports as [| data reports IH]; cbn [map concat fold_right];
    [reflexivity |].
  rewrite <- IH, <- seen_in_event_line.
  destruct (event_line_ends data) as [-> | (body & ->)]; [reflexivity |].
  rewrite <- app_assoc. cbn [app].
  rewrite !seen_in_text_sep by (right; now right).
  change (seen_in_text []) with seen_nothing.
  now rewrite seen_or_nothing_r.
Qed.

Lemma nul_not_in_lines (reports : list (list byte)) :
  ~ In zero (concat (map event_line reports)).
Proof.
  induction reports as [| data reports IH]; cbn [map concat]; [intros [] |].
  rewrite in_app_iff. intros [H | H]; [| exact (IH H)].
  exact (nul_not_in_event_line data H).
Qed.

(** One poll after reports whose lines fit in one read: the iteration
    searches all the lines as one text, and the buffer is empty again. *)
Lemma poll_after_ingest (reports : list (list byte)) (st : driver)
    (p : pointer) :
  buf_ok st ->
  head st = tail st ->
  (length (concat (map event_line reports)) <= 255)%nat ->
  (poll (ingest reports st) p).2
  = react (seen_in_text (concat (map event_line reports))) p /\
  contents (poll (ingest reports st) p).1 = [].
Proof.
  intros Hok Hempty Hlen.
  destruct (empty_free st Hempty) as (Hf & Hnil).
  destruct (ingest_lines reports st Hok) as (H1 & H2); [lia |].
  rewrite Hnil in H2. cbn [app] in H2.
  destruct (device_read_ok user_buffer 255 (ingest reports st) H1)
    as (st2 & E & _ & R2 & _).
  { intros k Hk _. unfold user_buffer. apply Nat.ltb_lt. lia. }
  unfold poll. rewrite E. cbn [fst snd]. rewrite R2, H2.
  rewrite take_ge, drop_ge, Nat.min_r by lia.
  split; [| reflexivity].
  apply main_iteration_react, nul_not_in_lines.
Qed.

(** X16.  When the lines of several reports are read in one poll, the
    iteration takes one branch: that of the first of Down, Up, Left, Right,
    A, B, 1, 2, Plus, Minus found in any of the lines, whatever the order
    in which the reports arrived.  The other button presses in that read
    are lost.  The branch of 2 enters [page_down] and ends at its call of
    the missing function [sytem]; every other branch ends with
    [send_mouse_move] and the sleep. *)
Theorem reader_reacts_once_per_poll (reports : list (list byte))
    (st : driver) (p : pointer) :
  buf_ok st ->
  head st = tail st ->
  (length (concat (map event_line reports)) <= 255)%nat ->
  let r := poll (ingest reports st) p in
  r.2 = react (fold_right seen_or seen_nothing (map seen_in_event reports)) p /\
  contents r.1 = [].
Proof.
  intros Hok Hempty Hlen r. subst r.
  destruct (poll_after_ingest reports st p Hok Hempty Hlen) as (H1 & H2).
  split; [| exact H2]. rewrite H1. now rewrite seen_in_lines.
Qed.

(** X17.  The branch the reader takes for one button report read alone
    is decided by the buttons in the order Down, Up, Left, Right, A, B, 1,
    2, Plus, Minus -- and by the report identifier: when none of the first
    six is pressed, a digit 1 in the identifier's decimal text calls
    [page_up] as if button 1 had been pressed, and otherwise a digit 2
    takes the branch of button 2, which ends at the call of the missing
    function [sytem] inside [page_down]; Plus and Minus are never reached
    for such identifiers.  Home has no effect. *)
Theorem reader_reaction_to_report (report_id btn_byte1 btn_byte2 : byte)
    (rest : list byte) (st : driver) (p : pointer) :
  buf_ok st ->
  head st = tail st ->
  u8 report_id <> 0x20 ->
  (poll (wii_raw_event (report_id :: btn_byte1 :: btn_byte2 :: rest) st).1 p).2
  = react (seen_in_report report_id btn_byte1 btn_byte2) p.
Proof.
  intros Hok Hempty Hid.
  pose proof (poll_after_ingest
                [report_id :: btn_byte1 :: btn_byte2 :: rest] st p Hok Hempty) as H.
  cbn [map concat event_line ingest fold_left] in H.
  apply Z.eqb_neq in Hid. rewrite Hid in H.
  rewrite app_nil_r, seen_in_button_line in H.
  apply H.
  destruct (button_line_body report_id btn_byte1 btn_byte2)
    as (body & -> & _ & Hb).
  rewrite length_app. cbn [length]. lia.
Qed.

(** X18.  A status report read alone makes the reader click the right
    mouse button: the line "Battery: <level>" has none of the Dpad texts
    and no "A", and its first letter is found by the search for "B". *)
Theorem battery_line_clicks_right (level : byte) (rest : list byte)
    (st : driver) (p : pointer) :
  buf_ok st ->
  head st = tail st ->
  (poll (wii_raw_event (x20 :: level :: rest) st).1 p).2
  = Continue p [Printf ("A Right pressed" ++ nl); Right_click;
                Send_mouse_move (x_pos p) (y_pos p); Usleep 100000].
Proof.
  intros Hok Hempty.
  pose proof (poll_after_ingest [x20 :: level :: rest] st p Hok Hempty) as H.
  cbn [map concat event_line ingest fold_left] in H.
  change (u8 x20 =? 32) with true in H. cbv iota in H.
  rewrite app_nil_r, seen_in_battery_line in H.
  destruct H as (H & _); [| exact H].
  destruct level; vm_compute; lia.
Qed.

(** ** How many reports the buffer takes *)

Lemma event_line_length (data : list byte) : (length (event_line data) <= 78)%nat.
Proof.
  destruct data as [| id [| b1 rest]]; cbn [event_line length]; try lia.
  destruct (u8 id =? 32).
  - destruct b1; vm_compute; lia.
  - destruct rest as [| b2 rest]; [cbn [length]; lia |].
    destruct (button_line_body id b1 b2) as (body & -> & _ & Hb).
    rewrite length_app. cbn [length]. lia.
Qed.

Lemma event_lines_length (reports : list (list byte)) :
  (length (concat (map event_line reports)) <= 78 * length reports)%nat.
Proof.
  induction reports as [| data reports IH]; cbn [map concat length]; [lia |].
  rewrite length_app. pose proof (event_line_length data). lia.
Qed.

(** X19.  Starting from an empty buffer, any thirteen reports are stored
    without the loss of a byte, whatever they are; fourteen are not always:
    fourteen reports with all buttons pressed and a three-digit identifier
    need 1092 bytes, and the buffer never holds more than 1023. *)
Theorem thirteen_reports_fit (reports : list (list byte)) (st : driver) :
  buf_ok st ->
  head st = tail st ->
  (length reports <= 13)%nat ->
  contents (ingest reports st) = concat (map event_line reports) /\
  (let full := replicate 14 [xff; xff; xff] in
   length (concat (map event_line full)) = 1092%nat /\
   (length (contents (ingest full st))
    < length (concat (map event_line full)))%nat).
Proof.
  intros Hok Hempty Hlen.
  destruct (empty_free st Hempty) as (Hf & Hnil).
  pose proof (event_lines_length reports) as Hl.
  destruct (ingest_lines reports st Hok) as (_ & H2); [lia |].
  rewrite Hnil in H2. split; [exact H2 |].
  cbv zeta.
  assert (E : length (concat (map event_line (replicate 14 [xff; xff; xff])))
              = 1092%nat) by (vm_compute; reflexivity).
  split; [exact E |]. rewrite E.
  pose proof (free_contents (ingest (replicate 14 [xff; xff; xff]) st)). lia.
Qed.

End CharDevice.

(** * Concrete runs *)

(** C2 at work: "ab" then "c" written to the fresh buffer, read back in
    pieces of at most 2 and 5 bytes. *)
Lemma fifo_order_witness :
  let ws := [list_ascii_of_string "ab"; list_ascii_of_string "c"] in
  let reads := [(all_writable, 2%nat); (all_writable, 5%nat)] in
  buf_ok init /\
  no_drop ws init /\
  Forall (fun rd => forall k : nat, rd.1 k = true) reads /\
  map snd (read_all EFAULT_linux reads (write_all ws init)).2
  = [list_ascii_of_string "ab"; list_ascii_of_string "c"].
Proof.
  intros ws reads.
  assert (H1 : buf_ok init)
    by (split; [vm_compute; reflexivity | unfold CIRC_BUFFER_SIZE; cbn; lia]).
  assert (H2 : no_drop ws init) by (vm_compute; auto).
  assert (H3 : Forall (fun rd => forall k : nat, rd.1 k = true) reads)
    by (repeat constructor).
  split; [exact H1 |]. split; [exact H2 |]. split; [exact H3 |].
  exact (proj1 (proj2 (fifo_order EFAULT_linux init ws reads H1 H2 H3))).
Defined.

(** C3 at work: 1030 bytes offered to the fresh buffer. *)
Lemma overflow_drop_witness :
  let data := replicate 1030 "a"%char in
  buf_ok init /\
  (free init < length data)%nat /\
  stored data init = 1023%nat.
Proof.
  intros data.
  assert (H1 : buf_ok init)
    by (split; [vm_compute; reflexivity | unfold CIRC_BUFFER_SIZE; cbn; lia]).
  assert (H2 : (free init < length data)%nat)
    by (subst data; rewrite length_replicate; vm_compute; lia).
  split; [exact H1 |]. split; [exact H2 |].
  exact (proj1 (overflow_drop EFAULT_linux init data H1 H2)).
Defined.

(** C10 at work: "abc" is in the buffer and the user buffer has room for
    one byte only. *)
Lemma read_fault_consumes_witness :
  let st := circ_buffer_write (list_ascii_of_string "abc") init in
  let writable := fun k : nat => Nat.ltb k 1 in
  buf_ok st /\
  (1 < 3)%nat /\
  (1 < length (contents st))%nat /\
  (forall k : nat, (k < 1)%nat -> writable k = true) /\
  writable 1%nat = false /\
  (device_read EFAULT_linux writable 3 st).1.2 = -14 /\
  contents (device_read EFAULT_linux writable 3 st).1.1
  = list_ascii_of_string "bc".
Proof.
  intros st writable.
  assert (H1 : buf_ok st)
    by (split; [vm_compute; reflexivity | unfold CIRC_BUFFER_SIZE; vm_compute; intuition discriminate]).
  assert (H2 : (1 < 3)%nat) by lia.
  assert (H3 : (1 < length (contents st))%nat) by (vm_compute; lia).
  assert (H4 : forall k : nat, (k < 1)%nat -> writable k = true)
    by (intros k Hk; apply Nat.ltb_lt; exact Hk).
  assert (H5 : writable 1%nat = false) by reflexivity.
  pose proof (read_fault_consumes EFAULT_linux st writable 3 1 H1 H2 H3 H4 H5)
    as (R1 & _ & _ & R3 & _).
  split; [exact H1 |]. split; [exact H2 |]. split; [exact H3 |].
  split; [exact H4 |]. split; [exact H5 |]. split; [exact R1 |].
  rewrite R3. vm_compute. reflexivity.
Defined.

(** C4: the report [0x31, 0x00, 0x00]. *)
Lemma no_buttons_report_49 :
  mapped_event x31 x00 x00 = list_ascii_of_string "Report: ID=49, " ++ [newline].
Proof. vm_compute. reflexivity. Qed.

(** C5 as stated fails: with only Plus pressed the line ends in a space
    before the newline. *)
Lemma separated_line_fails :
  mapped_event x31 x10 x00
  = list_ascii_of_string "Report: ID=49, Plus " ++ [newline] /\
  separated_line x31 x10 x00
  = list_ascii_of_string "Report: ID=49, Plus" ++ [newline] /\
  mapped_event x31 x10 x00 <> separated_line x31 x10 x00.
Proof.
  split; [vm_compute; reflexivity |]. split; [vm_compute; reflexivity |].
  vm_compute. discriminate.
Qed.

(** C5 (amended) at work: only Plus pressed. *)
Lemma button_tokens_terminated_witness :
  pressed_tokens x10 x00 <> [] /\
  exists after_left : string,
    (after_left = EmptyString \/ after_left = " "%string) /\
    mapped_event x31 x10 x00 = terminated_line after_left x31 x10 x00.
Proof.
  assert (H : pressed_tokens x10 x00 <> []) by (vm_compute; discriminate).
  split; [exact H |]. exact (button_tokens_terminated x31 x10 x00 H).
Defined.

(** C6 at work: the fresh module and a reader asking for 255 bytes. *)
Lemma button_scenario_witness :
  buf_ok init /\
  head init = tail init /\
  (forall k : nat, all_writable k = true) /\
  (26 <= 255)%nat /\
  (device_read EFAULT_linux all_writable 255
     (wii_raw_event [x31; x01; x08] init).1).2
  = list_ascii_of_string "Report: ID=49, Dpad_LeftA" ++ [newline].
Proof.
  assert (H1 : buf_ok init)
    by (split; [vm_compute; reflexivity | unfold CIRC_BUFFER_SIZE; cbn; lia]).
  assert (H2 : head init = tail init) by reflexivity.
  assert (H3 : forall k : nat, all_writable k = true) by reflexivity.
  assert (H4 : (26 <= 255)%nat) by lia.
  split; [exact H1 |]. split; [exact H2 |]. split; [exact H3 |].
  split; [exact H4 |].
  exact (proj1 (proj2 (proj2
           (button_scenario EFAULT_linux init all_writable 255 H1 H2 H3 H4)))).
Defined.

(** C7 at work: device 7 has just been probed and the transport reports
    the two bytes as sent. *)
Lemma status_round_trip_witness :
  let st := (wii_probe 7 0 0 init).1 in
  let io := device_ioctl ENODEV_linux ENOTTY_linux REQUEST_STATUS_linux
              2 REQUEST_STATUS_linux st in
  driver_inv st /\
  wii_connected st = 1 /\
  head st = tail st /\
  0 <= 2 /\
  (forall k : nat, all_writable k = true) /\
  (12 <= 255)%nat /\
  io.2 = 2 /\
  wii_last_battery (wii_raw_event [x20; x2a] io.1).1 = 42.
Proof.
  intros st io.
  assert (H1 : driver_inv st).
  { split; [split; [vm_compute; reflexivity | unfold CIRC_BUFFER_SIZE; cbn; lia] |].
    split; [reflexivity |]. split; [left; split; [reflexivity | discriminate] |].
    left. reflexivity. }
  assert (H2 : wii_connected st = 1) by reflexivity.
  assert (H3 : head st = tail st) by reflexivity.
  assert (H4 : 0 <= 2) by lia.
  assert (H5 : forall k : nat, all_writable k = true) by reflexivity.
  assert (H6 : (12 <= 255)%nat) by lia.
  pose proof (status_round_trip ENODEV_linux ENOTTY_linux EFAULT_linux
                REQUEST_STATUS_linux st 2 all_writable 255 H1 H2 H3 H4 H5 H6)
    as (R1 & _ & _ & _ & _ & R6 & _).
  split; [exact H1 |]. split; [exact H2 |]. split; [exact H3 |].
  split; [exact H4 |]. split; [exact H5 |]. split; [exact H6 |].
  split; [exact R1 | exact R6].
Defined.

(** C8 at work: the status ioctl on the module as loaded. *)
Lemma no_device_iff_disconnected_witness :
  2 <> - ENODEV_linux /\
  (device_ioctl ENODEV_linux ENOTTY_linux REQUEST_STATUS_linux
     2 REQUEST_STATUS_linux init).2 = - ENODEV_linux.
Proof.
  assert (H : 2 <> - ENODEV_linux) by (unfold ENODEV_linux; lia).
  split; [exact H |].
  apply (proj1 (proj2 (no_device_iff_disconnected ENODEV_linux ENOTTY_linux
                         EFAULT_linux REQUEST_STATUS_linux [] 2)) H).
  reflexivity.
Defined.

(** C8 as stated fails: with a device attached and a transport that
    answers [-ENODEV] itself, the status ioctl returns [-ENODEV] although
    the module is connected and the request has been handed over. *)
Lemma no_device_while_connected :
  let st := run ENODEV_linux ENOTTY_linux EFAULT_linux REQUEST_STATUS_linux
              [OpProbe 7 0 0] init in
  let io := device_ioctl ENODEV_linux ENOTTY_linux REQUEST_STATUS_linux
              (- ENODEV_linux) REQUEST_STATUS_linux st in
  wii_connected st = 1 /\
  io.2 = - ENODEV_linux /\
  hw_requests st = [] /\
  hw_requests io.1
  = [mkRequest 7 x15 [x15; x00] 2 HID_OUTPUT_REPORT HID_REQ_SET_REPORT] /\
  ~ ((io.2 = - ENODEV_linux <-> wii_connected st = 0) /\
     (io.2 = - ENODEV_linux -> hw_requests io.1 = hw_requests st)).
Proof.
  cbv zeta.
  split; [reflexivity |]. split; [reflexivity |]. split; [reflexivity |].
  split; [reflexivity |].
  intros ((H & _) & _). specialize (H eq_refl). discriminate H.
Qed.

(** C9 as stated fails: a status report may carry any byte. *)
Lemma battery_above_100 :
  let st := (wii_raw_event [x20; xc8] init).1 in
  wii_last_battery st = 200 /\
  ~ (wii_last_battery st = -1 \/ 0 <= wii_last_battery st <= 100).
Proof.
  assert (E : wii_last_battery (wii_raw_event [x20; xc8] init).1 = 200).
  { destruct (circ_buffer_write_spec (battery_output xc8)
                (set_wii_last_battery (u8 xc8) init) (proj1 driver_inv_init))
      as (_ & _ & _ & _ & _ & _ & (_ & _ & S3 & _) & _).
    exact S3. }
  cbv zeta. rewrite E. split; [reflexivity | lia].
Qed.

(** * Further concrete runs *)

(** X1 at work: "abc" is unread and the user buffer takes one byte. *)
Lemma read_conserves_bytes_witness :
  let st := circ_buffer_write (list_ascii_of_string "abc") init in
  let r := device_read EFAULT_linux (fun k : nat => Nat.ltb k 1) 3 st in
  buf_ok st /\
  r.2 ++ contents r.1.1 = list_ascii_of_string "abc".
Proof.
  intros st r.
  assert (H1 : buf_ok st)
    by (split; [vm_compute; reflexivity
               | unfold CIRC_BUFFER_SIZE; vm_compute; intuition discriminate]).
  split; [exact H1 |].
  subst r.
  rewrite (proj1 (read_conserves_bytes EFAULT_linux
                    (fun k : nat => Nat.ltb k 1) 3 st H1)).
  vm_compute. reflexivity.
Defined.

(** X2 at work: nothing is unread and no byte of the user buffer can be
    written, yet the read succeeds. *)
Lemma read_fault_iff_witness :
  0 < EFAULT_linux /\
  buf_ok init /\
  (device_read EFAULT_linux (fun _ : nat => false) 10 init).1.2
  <> - EFAULT_linux.
Proof.
  assert (H0 : 0 < EFAULT_linux) by (unfold EFAULT_linux; lia).
  assert (H1 : buf_ok init)
    by (split; [vm_compute; reflexivity | unfold CIRC_BUFFER_SIZE; cbn; lia]).
  split; [exact H0 |]. split; [exact H1 |].
  intros Habs.
  apply (proj1 (proj1 (read_fault_iff EFAULT_linux (fun _ : nat => false)
                         10 init H0 H1))) in Habs.
  destruct Habs as (k & Hk & _). vm_compute in Hk. lia.
Defined.

(** X4 at work: the status identifier without a level byte. *)
Lemma short_report_ignored_witness :
  (length [x20] < 3)%nat /\
  (forall level : byte, [x20] <> [x20; level]) /\
  wii_raw_event [x20] init = (init, 0).
Proof.
  assert (H1 : (length [x20] < 3)%nat) by (cbn; lia).
  assert (H2 : forall level : byte, [x20] <> [x20; level])
    by (intros level; discriminate).
  split; [exact H1 |]. split; [exact H2 |].
  exact (short_report_ignored [x20] init H1 H2).
Defined.

(** X5 at work: a status report with a trailing byte. *)
Lemma status_report_caches_level_witness :
  buf_ok init /\
  wii_last_battery (wii_raw_event [x20; x2a; x07] init).1 = 42.
Proof.
  assert (H1 : buf_ok init)
    by (split; [vm_compute; reflexivity | unfold CIRC_BUFFER_SIZE; cbn; lia]).
  split; [exact H1 |].
  exact (proj1 (status_report_caches_level x2a [x07] init H1)).
Defined.

(** X6 at work: a button report and a status report, read together. *)
Lemma reports_accumulate_witness :
  let reports := [[x31; x01; x08]; [x20; x2a]] in
  buf_ok init /\
  (length (concat (map event_line reports)) <= free init)%nat /\
  (forall k : nat, all_writable k = true) /\
  (device_read EFAULT_linux all_writable 255 (ingest reports init)).1.2 = 38.
Proof.
  intros reports.
  assert (H1 : buf_ok init)
    by (split; [vm_compute; reflexivity | unfold CIRC_BUFFER_SIZE; cbn; lia]).
  assert (H2 : (length (concat (map event_line reports)) <= free init)%nat)
    by (vm_compute; lia).
  assert (H3 : forall k : nat, all_writable k = true) by reflexivity.
  split; [exact H1 |]. split; [exact H2 |]. split; [exact H3 |].
  rewrite (proj2 (proj2 (reports_accumulate EFAULT_linux reports init
                           all_writable 255 H1 H2 H3))).
  vm_compute. reflexivity.
Defined.

(** X13 at work: every call succeeds but [device_create]. *)
Lemma wii_init_success_witness :
  let k := mkAnswers true 0 0 0 false 0 in
  0 < ENOMEM_linux /\
  answers_in_contract k /\
  (wii_init ENOMEM_linux k nothing_registered).2 = 0 /\
  device_created (wii_init ENOMEM_linux k nothing_registered).1 = false.
Proof.
  intros k.
  assert (H0 : 0 < ENOMEM_linux) by (unfold ENOMEM_linux; lia).
  assert (H1 : answers_in_contract k) by (unfold answers_in_contract; cbn; lia).
  assert (H2 : (wii_init ENOMEM_linux k nothing_registered).2 = 0)
    by reflexivity.
  split; [exact H0 |]. split; [exact H1 |]. split; [exact H2 |].
  rewrite (proj2 (wii_init_success ENOMEM_linux k H0 H1) H2). reflexivity.
Defined.

(** X14 at work: [cdev_add] fails with -16. *)
Lemma wii_init_failure_keeps_proc_entry_witness :
  let k := mkAnswers true 0 (-16) 0 true 0 in
  0 < ENOMEM_linux /\
  answers_in_contract k /\
  (wii_init ENOMEM_linux k nothing_registered).2 <> 0 /\
  proc_registered (wii_init ENOMEM_linux k nothing_registered).1 = true.
Proof.
  intros k.
  assert (H0 : 0 < ENOMEM_linux) by (unfold ENOMEM_linux; lia).
  assert (H1 : answers_in_contract k) by (unfold answers_in_contract; cbn; lia).
  assert (H2 : (wii_init ENOMEM_linux k nothing_registered).2 <> 0)
    by (vm_compute; discriminate).
  split; [exact H0 |]. split; [exact H1 |]. split; [exact H2 |].
  destruct (wii_init_failure_keeps_proc_entry ENOMEM_linux k H0 H1 H2)
    as (_ & _ & _ & _ & _ & _ & H). exact H.
Defined.

(** X15 at work: load, then unload. *)
Lemma wii_exit_after_init_witness :
  let k := mkAnswers true 0 0 0 true 0 in
  0 < ENOMEM_linux /\
  answers_in_contract k /\
  (wii_init ENOMEM_linux k nothing_registered).2 = 0 /\
  wii_exit (wii_init ENOMEM_linux k nothing_registered).1 = nothing_registered.
Proof.
  intros k.
  assert (H0 : 0 < ENOMEM_linux) by (unfold ENOMEM_linux; lia).
  assert (H1 : answers_in_contract k) by (unfold answers_in_contract; cbn; lia).
  assert (H2 : (wii_init ENOMEM_linux k nothing_registered).2 = 0)
    by reflexivity.
  split; [exact H0 |]. split; [exact H1 |]. split; [exact H2 |].
  exact (wii_exit_after_init ENOMEM_linux k H0 H1 H2).
Defined.

(** X16 at work: A is pressed, then Dpad_Down, before the reader polls:
    the pointer moves down and no click is made. *)
Lemma reader_reacts_once_per_poll_witness :
  let reports := [[x31; x00; x08]; [x31; x04; x00]] in
  let p := mkPointer 0 0 20 in
  buf_ok init /\
  head init = tail init /\
  (length (concat (map event_line reports)) <= 255)%nat /\
  (poll EFAULT_linux (ingest reports init) p).2
  = Continue (mkPointer 0 20 20)
      [Printf ("D-Pad Down pressed" ++ nl); Send_mouse_move 0 20; Usleep 100000].
Proof.
  intros reports p.
  assert (H1 : buf_ok init)
    by (split; [vm_compute; reflexivity | unfold CIRC_BUFFER_SIZE; cbn; lia]).
  assert (H2 : head init = tail init) by reflexivity.
  assert (H3 : (length (concat (map event_line reports)) <= 255)%nat)
    by (vm_compute; lia).
  split; [exact H1 |]. split; [exact H2 |]. split; [exact H3 |].
  rewrite (proj1 (reader_reacts_once_per_poll EFAULT_linux reports init p
                    H1 H2 H3)).
  reflexivity.
Defined.

(** X17 at work: Plus pressed in a report with identifier 0x33, which
    reads 51: the reader pages up and leaves the step as it is. *)
Lemma reader_reaction_to_report_witness :
  let p := mkPointer 0 0 20 in
  buf_ok init /\
  head init = tail init /\
  u8 x33 <> 32 /\
  (poll EFAULT_linux (wii_raw_event [x33; x10; x00] init).1 p).2
  = Continue p [Printf ("1 pressed" ++ nl); Page_up;
                Send_mouse_move 0 0; Usleep 100000].
Proof.
  intros p.
  assert (H1 : buf_ok init)
    by (split; [vm_compute; reflexivity | unfold CIRC_BUFFER_SIZE; cbn; lia]).
  assert (H2 : head init = tail init) by reflexivity.
  assert (H3 : u8 x33 <> 32) by (vm_compute; discriminate).
  split; [exact H1 |]. split; [exact H2 |]. split; [exact H3 |].
  rewrite (reader_reaction_to_report EFAULT_linux x33 x10 x00 [] init p
             H1 H2 H3).
  reflexivity.
Defined.

(** X18 at work: battery level 42. *)
Lemma battery_line_clicks_right_witness :
  let p := mkPointer 5 7 20 in
  buf_ok init /\
  head init = tail init /\
  (poll EFAULT_linux (wii_raw_event [x20; x2a] init).1 p).2
  = Continue p [Printf ("A Right pressed" ++ nl); Right_click;
                Send_mouse_move 5 7; Usleep 100000].
Proof.
  intros p.
  assert (H1 : buf_ok init)
    by (split; [vm_compute; reflexivity | unfold CIRC_BUFFER_SIZE; cbn; lia]).
  assert (H2 : head init = tail init) by reflexivity.
  split; [exact H1 |]. split; [exact H2 |].
  exact (battery_line_clicks_right EFAULT_linux x2a [] init p H1 H2).
Defined.

(** X19 at work: thirteen reports with every button pressed. *)
Lemma thirteen_reports_fit_witness :
  let reports := replicate 13 [xff; xff; xff] in
  buf_ok init /\
  head init = tail init /\
  (length reports <= 13)%nat /\
  contents (ingest reports init) = concat (map event_line reports).
Proof.
  intros reports.
  assert (H1 : buf_ok init)
    by (split; [vm_compute; reflexivity | unfold CIRC_BUFFER_SIZE; cbn; lia]).
  assert (H2 : head init = tail init) by reflexivity.
  assert (H3 : (length reports <= 13)%nat) by (vm_compute; lia).
  split; [exact H1 |]. split; [exact H2 |]. split; [exact H3 |].
  exact (proj1 (thirteen_reports_fit reports init H1 H2 H3)).
Defined.
